(** * Region extraction geometry of [anomalib/models/rbad/region.py]

    A shallow embedding of the geometric routines of the region extractor
    and the properties stated about them:

    - [tiled_boxes]: the tiler, over IEEE binary64 (NumPy's [float64]);
    - [update_box_sizes_following_image_resize]: the rescaling of boxes
      between coordinate spaces;
    - [convert_to_patch_boxes]: the patch-box normalizer;
    - [extract_patches_from_frame]: the patch extractor, with NumPy's
      slicing and broadcasting, over abstract pixel conversions;
    - [RegionExtractor.forward] and [postprocess_detections]: the
      orchestration, over an abstract detection network.

    Number representations.  NumPy's [float64] arithmetic of the tiler is
    modelled bit for bit with Rocq's primitive binary64 floats, since its
    rounding decides where tiles are placed already on small frames.  Torch
    tensors of [float32] are embedded in [Q] and tensors of [int32] in [Z]:
    for these the development is over exact arithmetic, which is what the
    code computes as long as every coordinate is an integer of magnitude
    below [2^24] or a quotient that the claims treat exactly.
    [likelihood_to_class_threshold], a [float64] cosine raised to a
    [float64] power, is not embedded. *)

From Stdlib Require Import ZArith QArith Qround Lia Lqa Bool.
From Stdlib Require Import PrimFloat SpecFloat FloatOps FloatAxioms.
From stdpp Require Import base option list.

Local Open Scope Z_scope.

(** ** Python exceptions and results *)

Inductive exn : Set :=
| ValueError
| AssertionError
| ZeroDivisionError
| OverflowError
| IndexError
| RuntimeError.

Inductive result (A : Type) : Type :=
| Ok (a : A)
| Raise (e : exn).
Arguments Ok {A} a.
Arguments Raise {A} e.

Definition rbind {A B} (m : result A) (k : A -> result B) : result B :=
  match m with
  | Ok a => k a
  | Raise e => Raise e
  end.

Declare Scope result_scope.
Delimit Scope result_scope with result.
Notation "x <- m ;; k" := (rbind m (fun x => k))
  (at level 100, m at next level, right associativity) : result_scope.
Notation "'py_assert' c ;; k" := (if c then k else Raise AssertionError)
  (at level 100, c at next level, right associativity) : result_scope.

(** ** Boxes

    A row [(x1, y1, x2, y2)] of a boxes array; [A] is the element type of
    the array. *)

Record Box (A : Type) : Type := mkBox { bx1 : A; by1 : A; bx2 : A; by2 : A }.
Arguments mkBox {A} _ _ _ _.
Arguments bx1 {A} _.
Arguments by1 {A} _.
Arguments bx2 {A} _.
Arguments by2 {A} _.

Definition box_map {A B} (f : A -> B) (b : Box A) : Box B :=
  mkBox (f (bx1 b)) (f (by1 b)) (f (bx2 b)) (f (by2 b)).

(** ** The tiler, [tiled_boxes] *)

Module Tiler.

(** A Python [int] as a [float64]. *)
Definition float_of_Z (z : Z) : float :=
  SF2Prim (binary_normalize prec emax z 0 false).

(** [np.floor] followed by a cast to an integer type.  The cast of a NaN
    or of an infinity has no defined value (NumPy stores whatever the
    platform's conversion instruction leaves): [None]. *)
Definition floor_to_int (f : float) : option Z :=
  match Prim2SF f with
  | S754_zero _ => Some 0
  | S754_finite s m e =>
      let n := if s then Z.neg m else Z.pos m in
      Some (if 0 <=? e then n * 2 ^ e else n / 2 ^ (- e))
  | S754_infinity _ | S754_nan => None
  end.

(** [np.ceil] followed by a cast to an integer type. *)
Definition ceil_to_int (f : float) : option Z :=
  Z.opp <$> floor_to_int (PrimFloat.opp f).

(** [range(n)] *)
Definition range (n : Z) : list Z := Z.of_nat <$> seq 0 (Z.to_nat n).

(** [np.ceil(frame_dimension / isize).astype(np.int64)]; the operands of
    [/] are Python integers. *)
Definition tile_count (dimension isize : Z) : result Z :=
  if isize =? 0 then Raise ZeroDivisionError
  else match ceil_to_int (float_of_Z dimension / float_of_Z isize) with
       | Some n => Ok n
       | None => Raise OverflowError
       end.

(** [(frame_dimension - isize) / (tile_count - 1)]: the divisor is a NumPy
    integer, so the quotient is an IEEE division that never raises; with
    [tile_count = 1] it is [0/0] or [x/0]. *)
Definition tile_stride (dimension isize count : Z) : float :=
  float_of_Z (dimension - isize) / float_of_Z (count - 1).

(** [np.floor(k * tile_stride).astype(np.int32)] *)
Definition tile_origin (k : Z) (stride : float) : option Z :=
  floor_to_int (float_of_Z k * stride).

(** The row written for tile [(r, c)]:
    [[tile_col, tile_row, tile_col + isize, tile_row + isize]]. *)
Definition tile_box (isize : Z) (stride_r stride_c : float) (r c : Z)
  : Box (option Z) :=
  let tile_row := tile_origin r stride_r in
  let tile_col := tile_origin c stride_c in
  mkBox tile_col tile_row
        ((fun v => v + isize) <$> tile_col) ((fun v => v + isize) <$> tile_row).

(** [tiled_boxes(frame, isize)], as a function of [frame.shape[:2]].  The
    rows are filled at index [tile_count_c * r + c], that is in row-major
    order. *)
Definition tiled_boxes (frame_size_rc : Z * Z) (isize : Z)
  : result (list (Box (option Z))) :=
  (tile_count_r <- tile_count (fst frame_size_rc) isize ;;
   tile_count_c <- tile_count (snd frame_size_rc) isize ;;
   let tile_stride_r := tile_stride (fst frame_size_rc) isize tile_count_r in
   let tile_stride_c := tile_stride (snd frame_size_rc) isize tile_count_c in
   Ok (r ← range tile_count_r;
       c ← range tile_count_c;
       [tile_box isize tile_stride_r tile_stride_c r c]))%result.

(** Pixel [(x, y)] (column, row) lies in the half-open rectangle of [b],
    the slice [frame[y1:y2, x1:x2]]. *)
Definition in_box (x y : Z) (b : Box (option Z)) : bool :=
  match bx1 b, by1 b, bx2 b, by2 b with
  | Some x1, Some y1, Some x2, Some y2 =>
      (x1 <=? x) && (x <? x2) && (y1 <=? y) && (y <? y2)
  | _, _, _, _ => false
  end.

Definition pixel_covered (tiles : list (Box (option Z))) (x y : Z) : bool :=
  existsb (in_box x y) tiles.

(** Every pixel of a frame of the given shape is covered. *)
Definition frame_covered (frame_size_rc : Z * Z)
    (tiles : list (Box (option Z))) : bool :=
  forallb (fun y => forallb (fun x => pixel_covered tiles x y)
                            (range (snd frame_size_rc)))
          (range (fst frame_size_rc)).

Definition tile_at (x y isize : Z) : Box (option Z) :=
  mkBox (Some x) (Some y) (Some (x + isize)) (Some (y + isize)).

End Tiler.

(** ** Rescaling and patch boxes *)

Module Geometry.

(** A size [(height, width)]: a coordinate space. *)
Definition size : Type := Z * Z.

(** [float(s) / float(s_orig)] on Python floats. *)
Definition float_div (s s_orig : Z) : result Q :=
  if s_orig =? 0 then Raise ZeroDivisionError
  else Ok (inject_Z s / inject_Z s_orig)%Q.

(** [update_box_sizes_following_image_resize(boxes, original_size, new_size)]:
    the ratios are computed for the height, then for the width; every [x] is
    multiplied by the width ratio and every [y] by the height ratio. *)
Definition update_box_sizes_following_image_resize
    (boxes : list (Box Q)) (original_size new_size : size)
  : result (list (Box Q)) :=
  (ratio_height <- float_div (fst new_size) (fst original_size) ;;
   ratio_width <- float_div (snd new_size) (snd original_size) ;;
   Ok ((fun b =>
          let xmin := (bx1 b * ratio_width)%Q in
          let xmax := (bx2 b * ratio_width)%Q in
          let ymin := (by1 b * ratio_height)%Q in
          let ymax := (by2 b * ratio_height)%Q in
          mkBox xmin ymin xmax ymax) <$> boxes))%result.


(** [torch.round]: to the nearest integer, halves to the even one. *)
Definition round_half_even (q : Q) : Z :=
  let f := Qfloor q in
  match (q - inject_Z f ?= 1 # 2)%Q with
  | Lt => f
  | Gt => f + 1
  | Eq => if Z.even f then f else f + 1
  end.

(** The cast of a float to an integer type: truncation towards zero. *)
Definition trunc (q : Q) : Z := Z.quot (Qnum q) (Z.pos (Qden q)).

(** [boxes.round_()]: the rows of the tensor after the in-place rounding. *)
Definition round_ (boxes : list (Box Q)) : list (Box Q) :=
  box_map (fun q => inject_Z (round_half_even q)) <$> boxes.

(** [x2[(widths % 2) == 1] += 1] and [y2[(heights % 2) == 1] += 1]; [x2] and
    [y2] are views of the columns of [boxes], so the rows change. *)
Definition make_sides_even (b : Box Z) : Box Z :=
  let widths := bx2 b - bx1 b in
  let heights := by2 b - by1 b in
  mkBox (bx1 b) (by1 b)
        (if widths mod 2 =? 1 then bx2 b + 1 else bx2 b)
        (if heights mod 2 =? 1 then by2 b + 1 else by2 b).

(** A quotient by 2 stored into a column of the [int32] tensor [deltas]. *)
Definition half (z : Z) : Z := trunc (inject_Z z / 2)%Q.

(** [boxes + deltas] *)
Definition add_deltas (target_side_length : Z) (b : Box Z) : Box Z :=
  let widths := bx2 b - bx1 b in
  let heights := by2 b - by1 b in
  mkBox (bx1 b + half (widths - target_side_length))
        (by1 b + half (heights - target_side_length))
        (bx2 b + half (target_side_length - widths))
        (by2 b + half (target_side_length - heights)).

(** [overhang[overhang < 0] = 0] *)
Definition clamp_overhang (overhang : Z) : Z :=
  if overhang <? 0 then 0 else overhang.

(** The four shifts, in the order of the code: against the left edge, the
    top edge, the right edge [frame_size[1] - 1] and the bottom edge
    [frame_size[0] - 1]. *)
Definition shift_from_left (b : Box Z) : Box Z :=
  let overhang := clamp_overhang (bx1 b * -1) in
  mkBox (bx1 b + overhang) (by1 b) (bx2 b + overhang) (by2 b).

Definition shift_from_top (b : Box Z) : Box Z :=
  let overhang := clamp_overhang (by1 b * -1) in
  mkBox (bx1 b) (by1 b + overhang) (bx2 b) (by2 b + overhang).

Definition shift_from_right (frame_size : size) (b : Box Z) : Box Z :=
  let overhang := clamp_overhang (bx2 b - snd frame_size + 1) in
  mkBox (bx1 b - overhang) (by1 b) (bx2 b - overhang) (by2 b).

Definition shift_from_bottom (frame_size : size) (b : Box Z) : Box Z :=
  let overhang := clamp_overhang (by2 b - fst frame_size + 1) in
  mkBox (bx1 b) (by1 b - overhang) (bx2 b) (by2 b - overhang).

(** What the steps between the assertions and the final cast make of one
    row whose sides are even already. *)
Definition place_row (frame_size : size) (target_side_length : Z)
    (b : Box Z) : Box Z :=
  shift_from_bottom frame_size
    (shift_from_right frame_size
       (shift_from_top (shift_from_left (add_deltas target_side_length b)))).

(** The body of [convert_to_patch_boxes] after its first line, on the
    [int32] copy of the rounded boxes. *)
Definition patch_boxes_of_int_boxes
    (boxes : list (Box Z)) (frame_size : size) (target_side_length : Z)
  : result (list (Box Q)) :=
  (py_assert (target_side_length mod 2 =? 0) ;;
   let boxes := make_sides_even <$> boxes in
   py_assert (forallb (fun b => (bx2 b - bx1 b) mod 2 =? 0) boxes) ;;
   py_assert (forallb (fun b => (by2 b - by1 b) mod 2 =? 0) boxes) ;;
   let boxes := add_deltas target_side_length <$> boxes in
   let boxes := shift_from_left <$> boxes in
   let boxes := shift_from_top <$> boxes in
   let boxes := shift_from_right frame_size <$> boxes in
   let boxes := shift_from_bottom frame_size <$> boxes in
   Ok (box_map inject_Z <$> boxes))%result.

(** [convert_to_patch_boxes(boxes, frame_size, target_side_length)].  The
    argument is the caller's [float32] tensor.  [boxes.round_()] rounds it
    in place; [.to(torch.int32)] then makes a copy of another element type,
    and every later in-place update is on that copy or on tensors made
    from it.  The function is a state transformer on the caller's tensor:
    the first component is that tensor after the call, the second what the
    call returns or raises. *)
Definition convert_to_patch_boxes
    (boxes : list (Box Q)) (frame_size : size) (target_side_length : Z)
  : list (Box Q) * result (list (Box Q)) :=
  let boxes := round_ boxes in
  (boxes,
   patch_boxes_of_int_boxes (box_map trunc <$> boxes)
                            frame_size target_side_length).

End Geometry.

(** ** The region extractor *)

Module Extractor.
Import Geometry.

(** [torch.arange(start, stop, step)] for a step that is not zero. *)
Definition arange (start stop step : Z) : list Z :=
  let n := if 0 <? step then (stop - start + step - 1) / step
           else (start - stop - step - 1) / (- step) in
  (fun i => start + Z.of_nat i * step) <$> seq 0 (Z.to_nat n).

(** [self.pseudo_scores], set by [__init__]: the floats 1000, 999, ..., 1. *)
Definition pseudo_scores : list Q := inject_Z <$> arange 1000 0 (-1).

(** A slice [xs[:n]] for a length [n]. *)
Definition slice_to {A} (n : nat) (xs : list A) : list A := take n xs.

(** A sequence that decreases strictly along its indices. *)
Definition strictly_decreasing (xs : list Q) : Prop :=
  forall (i j : nat) (a b : Q),
    (i < j)%nat -> xs !! i = Some a -> xs !! j = Some b -> (b < a)%Q.

(** An array of pixels, [H x W x C], or an image tensor, [C x H x W]. *)
Record ndarray : Type := mk_ndarray { shape : list Z; at3 : Z -> Z -> Z -> Q }.

Inductive Stage : Set := rpn_stage | rcnn_stage.

(** The attributes of a [RegionExtractor] that [forward] reads. *)
Record RegionExtractor : Type := mk_extractor {
  training : bool;
  use_original : bool;
  stage : Stage;
  patch_mode : bool;
  min_size : Q;
  stage_nms_thresh : Q;
  rcnn_score_thresh : Q;
  rcnn_detections_per_img : nat;
  patch_side_length : Z;
  patch_nms_thresh : Q
}.

(** The detection network and the box operations of the detection library:
    what the extractor calls and does not define. *)
Class Detector : Type := {
  image_list : Type;
  feature_maps : Type;
  box_features : Type;
  regression : Type;
  base_model : list ndarray -> list (list (Box Q));
  transform : list ndarray -> image_list * list size;
  backbone : image_list -> feature_maps;
  rpn : image_list -> feature_maps -> list (list (Box Q));
  box_roi_pool : feature_maps -> list (list (Box Q)) -> list size -> box_features;
  box_head : box_features -> box_features;
  box_predictor : box_features -> list (list Q) * regression;
  box_coder_decode : regression -> list (list (Box Q)) -> list (list (Box Q));
  softmax : list Q -> list Q;
  clip_boxes_to_image : list (Box Q) -> size -> list (Box Q);
  remove_small_boxes : list (Box Q) -> Q -> list nat;
  nms : list (Box Q) -> list Q -> Q -> list nat
}.

(** Calls of the network, in the order in which they are made. *)
Inductive event : Set :=
| CallBaseModel | CallTransform | CallBackbone | CallRpn
| CallRoiPool | CallBoxHead | CallBoxPredictor.

(** A computation that calls the network and may raise: the calls made and
    the outcome. *)
Definition M (A : Type) : Type := list event * result A.

Definition ret {A} (a : A) : M A := ([], Ok a).
Definition raise {A} (e : exn) : M A := ([], Raise e).
Definition lift {A} (r : result A) : M A := ([], r).
Definition call {A} (ev : event) (a : A) : M A := ([ev], Ok a).
Definition bind {A B} (m : M A) (k : A -> M B) : M B :=
  match m with
  | (t, Ok a) => let '(t', r) := k a in (t ++ t', r)
  | (t, Raise e) => (t, Raise e)
  end.

Declare Scope M_scope.
Delimit Scope M_scope with M.
Notation "x <- m ;; k" := (bind m (fun x => k))
  (at level 100, m at next level, right associativity) : M_scope.
Notation "'py_assert' c ;; k" := (if c then k else raise AssertionError)
  (at level 100, c at next level, right associativity) : M_scope.

(** [xs[i]] *)
Definition item {A} (xs : list A) (i : nat) : result A :=
  match xs !! i with
  | Some x => Ok x
  | None => Raise IndexError
  end.

(** [xs[keep]] for a tensor of indices [keep]. *)
Fixpoint index_select {A} (xs : list A) (keep : list nat) : result (list A) :=
  match keep with
  | [] => Ok []
  | i :: keep =>
      (x <- item xs i ;; rest <- index_select xs keep ;; Ok (x :: rest))%result
  end.

(** A loop that appends one result per element. *)
Fixpoint for_each {A B} (f : A -> result B) (xs : list A) : result (list B) :=
  match xs with
  | [] => Ok []
  | x :: xs => (y <- f x ;; ys <- for_each f xs ;; Ok (y :: ys))%result
  end.

(** [t.split(sizes, 0)] *)
Fixpoint split_sizes {A} (sizes : list nat) (t : list A) : result (list (list A)) :=
  match sizes with
  | [] => if decide (length t = 0%nat) then Ok [] else Raise RuntimeError
  | n :: sizes =>
      if decide (n <= length t)%nat
      then (rest <- split_sizes sizes (drop n t) ;; Ok (take n t :: rest))%result
      else Raise RuntimeError
  end.

(** [torch.nonzero(mask).squeeze(1)] *)
Definition nonzero (mask : list bool) : list nat :=
  fst <$> filter (fun p => snd p = true) (imap (fun i b => (i, b)) mask).

(** The per-image preparation of [forward]: [astype(np.float32)],
    [/= 255.0] and [permute(2, 0, 1)]. *)
Definition to_input (image : ndarray) : result ndarray :=
  match shape image with
  | [h; w; c] => Ok (mk_ndarray [c; h; w] (fun k i j => at3 image i j k / 255)%Q)
  | _ => Raise RuntimeError
  end.

(** [img.shape[-2:]] of an image tensor. *)
Definition image_size (img : ndarray) : size :=
  match shape img with
  | [_; h; w] => (h, w)
  | _ => (0, 0)
  end.

(** What [forward] returns: the list of the base model's boxes, one entry
    per frame, or one array of boxes. *)
Inductive forward_output : Type :=
| PerFrame (out : list (list (Box Q)))
| OneArray (boxes : list (Box Q)).

Section WithDetector.
Context `{Detector}.
Variable self : RegionExtractor.

(** One iteration of the loop of [postprocess_detections]. *)
Definition postprocess_image (num_classes : nat)
    (boxes : list (list (Box Q))) (scores : list (list Q)) (image_shape : size)
  : result (list (Box Q) * list Q * list Z) :=
  (let boxes := (fun row => clip_boxes_to_image row image_shape) <$> boxes in
   let labels := (fun _ => arange 0 (Z.of_nat num_classes) 1) <$> scores in
   let boxes := drop 1 <$> boxes in
   let scores := drop 1 <$> scores in
   let labels := drop 1 <$> labels in
   let boxes := concat boxes in
   let scores := concat scores in
   let labels := concat labels in
   let inds :=
     nonzero ((fun s => negb (Qle_bool s (rcnn_score_thresh self))) <$> scores) in
   boxes <- index_select boxes inds ;;
   scores <- index_select scores inds ;;
   labels <- index_select labels inds ;;
   let keep := remove_small_boxes boxes (min_size self) in
   boxes <- index_select boxes keep ;;
   scores <- index_select scores keep ;;
   labels <- index_select labels keep ;;
   let keep := nms boxes scores (stage_nms_thresh self) in
   let keep := slice_to (rcnn_detections_per_img self) keep in
   boxes <- index_select boxes keep ;;
   scores <- index_select scores keep ;;
   labels <- index_select labels keep ;;
   Ok (boxes, scores, labels))%result.

(** [postprocess_detections(class_logits, box_regression, proposals,
    image_shapes)]; the three lists it returns are zipped. *)
Definition postprocess_detections
    (class_logits : list (list Q)) (box_regression : regression)
    (proposals : list (list (Box Q))) (image_shapes : list size)
  : result (list (list (Box Q) * list Q * list Z)) :=
  (let num_classes := from_option length 0%nat (last class_logits) in
   let boxes_per_image := length <$> proposals in
   let pred_boxes := box_coder_decode box_regression proposals in
   let pred_scores := softmax <$> class_logits in
   pred_boxes <- split_sizes boxes_per_image pred_boxes ;;
   pred_scores <- split_sizes boxes_per_image pred_scores ;;
   for_each (fun '(boxes, scores, image_shape) =>
               postprocess_image num_classes boxes scores image_shape)
            (zip (zip pred_boxes pred_scores) image_shapes))%result.

(** The patch-mode step shared by both stages: patch boxes, then NMS with
    the pseudo scores; the indices kept are returned with the boxes. *)
Definition patch_step (boxes : list (Box Q)) (original_image_size : size)
  : result (list (Box Q) * list nat) :=
  (boxes <- snd (convert_to_patch_boxes boxes original_image_size
                                        (patch_side_length self)) ;;
   let keep := nms boxes (slice_to (length boxes) pseudo_scores)
                   (patch_nms_thresh self) in
   boxes <- index_select boxes keep ;;
   Ok (boxes, keep))%result.

(** The body of the loop of the [rpn] stage. *)
Definition rpn_frame (frame : list (Box Q) * size * size)
  : result (list (Box Q)) :=
  (let '(boxes, original_image_size, new_image_size) := frame in
   let boxes := clip_boxes_to_image boxes new_image_size in
   let keep := remove_small_boxes boxes (min_size self) in
   boxes <- index_select boxes keep ;;
   let keep := nms boxes (slice_to (length boxes) pseudo_scores)
                   (stage_nms_thresh self) in
   boxes <- index_select boxes keep ;;
   boxes <- update_box_sizes_following_image_resize
              boxes new_image_size original_image_size ;;
   if patch_mode self
   then (r <- patch_step boxes original_image_size ;; Ok (fst r))
   else Ok boxes)%result.

(** The body of the loop of the [rcnn] stage. *)
Definition rcnn_frame (frame : list (Box Q) * list Q * size * size)
  : result (list (Box Q) * list Q) :=
  (let '(boxes, scores, original_image_size, new_image_size) := frame in
   boxes <- update_box_sizes_following_image_resize
              boxes new_image_size original_image_size ;;
   if patch_mode self
   then (r <- patch_step boxes original_image_size ;;
         scores <- index_select scores (snd r) ;;
         Ok (fst r, scores))
   else Ok (boxes, scores))%result.

(** The lists [output_boxes] and [output_scores] that [forward] has built
    when it reaches its last statement ([use_original] is false). *)
Definition forward_outputs (input_list : list ndarray)
  : M (list (list (Box Q)) * list (list Q)) :=
  (let original_image_sizes := image_size <$> input_list in
   transformed <- call CallTransform (transform input_list) ;;
   let '(images, new_image_sizes) := transformed in
   features <- call CallBackbone (backbone images) ;;
   proposals <- call CallRpn (rpn images features) ;;
   match stage self with
   | rpn_stage =>
       output_boxes <-
         lift (for_each rpn_frame
                 (zip (zip proposals original_image_sizes) new_image_sizes)) ;;
       ret (output_boxes, [])
   | rcnn_stage =>
       pooled <- call CallRoiPool
                   (box_roi_pool features proposals new_image_sizes) ;;
       pooled <- call CallBoxHead (box_head pooled) ;;
       predicted <- call CallBoxPredictor (box_predictor pooled) ;;
       let '(class_logits, box_regression) := predicted in
       detections <-
         lift (postprocess_detections class_logits box_regression proposals
                                      new_image_sizes) ;;
       let boxes_list := (fun d => fst (fst d)) <$> detections in
       let scores_list := (fun d => snd (fst d)) <$> detections in
       outputs <-
         lift (for_each rcnn_frame
                 (zip (zip (zip boxes_list scores_list) original_image_sizes)
                      new_image_sizes)) ;;
       ret (fst <$> outputs, snd <$> outputs)
   end)%M.

(** [RegionExtractor.forward(cv2_images)].  The check of the training flag
    is the first statement; then come the assertions on the first image,
    the preparation of every image, and the network.  Moving the inputs to
    the device of the parameters and wrapping a single feature tensor in a
    dictionary change no value and are left out.  The last statement is
    [return output_boxes[0]]. *)
Definition forward (cv2_images : list ndarray) : M forward_output :=
  (if training self then raise ValueError
   else
     first <- lift (item cv2_images 0) ;;
     py_assert (decide (length (shape first) = 3%nat)) ;;
     py_assert (decide (shape first !! 2%nat = Some 3)) ;;
     input_list <- lift (for_each to_input cv2_images) ;;
     if use_original self
     then
       out <- call CallBaseModel (base_model input_list) ;;
       ret (PerFrame out)
     else
       outputs <- forward_outputs input_list ;;
       let '(output_boxes, output_scores) := outputs in
       boxes <- lift (item output_boxes 0) ;;
       ret (OneArray boxes))%M.

End WithDetector.

End Extractor.

(** ** A stand-in network

    A detector that proposes one box per frame, the box of frame [i] lying
    [30 * i] to the right of the box of frame 0, keeps the frame sizes,
    gives every proposal two classes with the scores [0.1] (background)
    and [0.9], decodes every class to the proposal itself, and whose box
    operations keep every box. *)

Module Example.
Import Geometry Extractor.

Definition stub_detector : Detector := {|
  image_list := list ndarray;
  feature_maps := unit;
  box_features := nat;
  regression := unit;
  base_model := fun imgs => (fun _ => [mkBox 1 2 3 4]) <$> imgs;
  transform := fun imgs => (imgs, image_size <$> imgs);
  backbone := fun _ => tt;
  rpn := fun imgs _ =>
    imap (fun i _ =>
            [mkBox (inject_Z (10 + 30 * Z.of_nat i)) 10
                   (inject_Z (60 + 30 * Z.of_nat i)) 55]) imgs;
  box_roi_pool := fun _ proposals _ => length (concat proposals);
  box_head := fun pooled => pooled;
  box_predictor := fun pooled => (replicate pooled [0; 1], tt);
  box_coder_decode := fun _ proposals => (fun b => [b; b]) <$> concat proposals;
  softmax := fun _ => [1 # 10; 9 # 10];
  clip_boxes_to_image := fun boxes _ => boxes;
  remove_small_boxes := fun boxes _ => seq 0 (length boxes);
  nms := fun boxes _ _ => seq 0 (length boxes)
|}%Q.

(** A black frame of 100 rows and 120 columns with 3 channels. *)
Definition black_frame : ndarray := mk_ndarray [100; 120; 3] (fun _ _ _ => 0%Q).

(** An extractor in evaluation mode, with the defaults of [__init__] apart
    from [patch_mode]. *)
Definition extractor (s : Stage) : RegionExtractor := {|
  training := false;
  use_original := false;
  stage := s;
  patch_mode := true;
  min_size := 25;
  stage_nms_thresh := 3 # 10;
  rcnn_score_thresh := 2 # 10;
  rcnn_detections_per_img := 100;
  patch_side_length := 32;
  patch_nms_thresh := 3 # 10
|}%Q.

(** The same extractor as [nn.Module.__init__] leaves it: in training
    mode. *)
Definition training_extractor (s : Stage) : RegionExtractor := {|
  training := true;
  use_original := false;
  stage := s;
  patch_mode := true;
  min_size := 25;
  stage_nms_thresh := 3 # 10;
  rcnn_score_thresh := 2 # 10;
  rcnn_detections_per_img := 100;
  patch_side_length := 32;
  patch_nms_thresh := 3 # 10
|}%Q.

End Example.

(** ** The patch extractor, [extract_patches_from_frame] *)

Module Patches.
Import Geometry Extractor.

(** What the extractor raises: a failed [assert], the [KeyError] of the
    lookup [np_type[out_type]], the [ValueError] of NumPy (a shape that
    cannot be broadcast, a negative dimension) and the error of OpenCV. *)
Inductive patch_exn : Set :=
| PatchAssertionError
| PatchKeyError
| PatchValueError
| PatchCv2Error.

Inductive outcome (A : Type) : Type :=
| Done (a : A)
| Fail (e : patch_exn).
Arguments Done {A} a.
Arguments Fail {A} e.

Definition obind {A B} (m : outcome A) (k : A -> outcome B) : outcome B :=
  match m with
  | Done a => k a
  | Fail e => Fail e
  end.

Declare Scope outcome_scope.
Delimit Scope outcome_scope with outcome.
Notation "x <- m ;; k" := (obind m (fun x => k))
  (at level 100, m at next level, right associativity) : outcome_scope.
Notation "'py_assert' c ;; k" := (if c then k else Fail PatchAssertionError)
  (at level 100, c at next level, right associativity) : outcome_scope.

(** The loop over the boxes, and over the channels of one box. *)
Fixpoint each {A B} (f : A -> outcome B) (xs : list A) : outcome (list B) :=
  match xs with
  | [] => Done []
  | x :: xs => (y <- f x ;; ys <- each f xs ;; Done (y :: ys))%outcome
  end.

(** The element types of the output array, and what can be passed as
    [out_type]. *)
Inductive np_dtype : Set := uint8 | float32 | float64.

Inductive out_dtype : Set :=
| np_uint8 | np_float32 | np_float64
| torch_uint8 | torch_float32 | torch_float64
| other_type.

(** The dictionary [np_type]. *)
Definition np_type (out_type : out_dtype) : option np_dtype :=
  match out_type with
  | np_uint8 | torch_uint8 => Some uint8
  | np_float32 | torch_float32 => Some float32
  | np_float64 | torch_float64 => Some float64
  | other_type => None
  end.

(** What the extractor uses and does not define: the conversion of a value
    stored into an array of a given element type, and
    [cv2.cvtColor(src, cv2.COLOR_BGR2GRAY)] on a source of [h] rows and [w]
    columns, which gives an image of the same size or raises. *)
Class PixelOps : Type := {
  astype : np_dtype -> Q -> Q;
  cvtColor_BGR2GRAY : Z -> Z -> (Z -> Z -> Z -> Q) -> option (Z -> Z -> Q)
}.

(** A bound [v] of a slice of an axis of length [len]: a negative bound
    counts from the end, and bounds are clipped to the axis. *)
Definition slice_bound (len v : Z) : Z :=
  if v <? 0 then Z.max (v + len) 0 else Z.min v len.

(** The first index and the length of the slice [start:stop]. *)
Definition slice_range (len start stop : Z) : Z * Z :=
  let first := slice_bound len start in
  (first, Z.max 0 (slice_bound len stop - first)).

(** A two-dimensional array as the extractor assigns it: its shape and its
    elements. *)
Record plane : Type := mk_plane { rows : Z; cols : Z; at2 : Z -> Z -> Q }.

(** [frame[box[1]:box[3], box[0]:box[2], k]] *)
Definition crop (frame : ndarray) (box : Box Z) (k : Z) : plane :=
  let '(y0, h) := slice_range (nth 0 (shape frame) 0) (by1 box) (by2 box) in
  let '(x0, w) := slice_range (nth 1 (shape frame) 0) (bx1 box) (bx2 box) in
  mk_plane h w (fun i j => at3 frame (y0 + i) (x0 + j) k).

(** [cv2.cvtColor(frame[box[1]:box[3], box[0]:box[2], :], cv2.COLOR_BGR2GRAY)] *)
Definition crop_gray `{PixelOps} (frame : ndarray) (box : Box Z)
  : outcome plane :=
  let '(y0, h) := slice_range (nth 0 (shape frame) 0) (by1 box) (by2 box) in
  let '(x0, w) := slice_range (nth 1 (shape frame) 0) (bx1 box) (bx2 box) in
  match cvtColor_BGR2GRAY h w (fun i j k => at3 frame (y0 + i) (x0 + j) k) with
  | Some gray => Done (mk_plane h w gray)
  | None => Fail PatchCv2Error
  end.

(** The assignment [patches[idx, :, :] = src] (or [patches[idx, :, :, c]])
    into a target of [isize x isize]: every dimension of the source must be
    that of the target or 1, and a dimension of 1 is repeated. *)
Definition assign `{PixelOps} (dtype : np_dtype) (isize : Z) (src : plane)
  : outcome (list (list Q)) :=
  if ((rows src =? isize) || (rows src =? 1))
     && ((cols src =? isize) || (cols src =? 1))
  then Done ((fun i =>
                (fun j =>
                   astype dtype (at2 src (if rows src =? 1 then 0 else i)
                                         (if cols src =? 1 then 0 else j)))
                  <$> seqZ 0 isize)
               <$> seqZ 0 isize)
  else Fail PatchValueError.

(** The array returned: three-dimensional for [channels = 0], with a last
    axis of channels otherwise. *)
Inductive patch_array : Type :=
| Patches3 (p : list (list (list Q)))
| Patches4 (p : list (list (list (list Q)))).

(** [np.round(boxes).astype(np.int32)]; integers are kept. *)
Definition round_boxes (boxes : list (Box Q)) : list (Box Z) :=
  box_map round_half_even <$> boxes.

(** What is assigned for one box when [channels = 0]. *)
Definition gray_patch `{PixelOps} (frame : ndarray) (dtype : np_dtype)
    (isize : Z) (box : Box Z) : outcome (list (list Q)) :=
  (if decide (length (shape frame) = 3%nat)
   then
     if decide (shape frame !! 2%nat = Some 1)
     then assign dtype isize (crop frame box 0)
     else src <- crop_gray frame box ;; assign dtype isize src
   else assign dtype isize (crop frame box 0))%outcome.

(** What is assigned to channel [c] for one box when [channels] is not 0. *)
Definition channel_patch `{PixelOps} (frame : ndarray) (dtype : np_dtype)
    (isize channels : Z) (box : Box Z) (c : Z) : outcome (list (list Q)) :=
  (if decide (length (shape frame) = 3%nat)
   then
     if decide (shape frame !! 2%nat = Some 1)
     then assign dtype isize (crop frame box 0)
     else
       if channels =? 1
       then src <- crop_gray frame box ;; assign dtype isize src
       else assign dtype isize (crop frame box c)
   else assign dtype isize (crop frame box 0))%outcome.

(** The planes of the channels of one patch, put along the last axis. *)
Definition stack_channels (isize : Z) (planes : list (list (list Q)))
  : list (list (list Q)) :=
  (fun i =>
     (fun j => (fun p => nth (Z.to_nat j) (nth (Z.to_nat i) p []) 0%Q) <$> planes)
       <$> seqZ 0 isize)
    <$> seqZ 0 isize.

(** [extract_patches_from_frame(frame, boxes, isize, channels, out_type)],
    for an array of floating-point boxes (an array of integers is one whose
    values are integers already). *)
Definition extract_patches_from_frame `{PixelOps}
    (frame : ndarray) (boxes : list (Box Q)) (isize channels : Z)
    (out_type : out_dtype) : outcome patch_array :=
  (py_assert (bool_decide (length (shape frame) = 2%nat
                       \/ length (shape frame) = 3%nat)) ;;
   py_assert (bool_decide (length (shape frame) = 3%nat ->
                       shape frame !! 2%nat = Some 1
                       \/ shape frame !! 2%nat = Some 3)) ;;
   py_assert ((0 <=? channels) && (channels <=? 3)) ;;
   let boxes := round_boxes boxes in
   match np_type out_type with
   | None => Fail PatchKeyError
   | Some dtype =>
       if isize <? 0 then Fail PatchValueError
       else if channels =? 0
       then p <- each (gray_patch frame dtype isize) boxes ;; Done (Patches3 p)
       else
         p <- each (fun box =>
                      planes <- each (channel_patch frame dtype isize channels box)
                                     (seqZ 0 channels) ;;
                      Done (stack_channels isize planes))
                   boxes ;;
         Done (Patches4 p)
   end)%outcome.

End Patches.

(** ** Predicates used in the statements *)

Module Predicates.

(** A box of integers that has the target sides and lies inside the frame,
    between 0 and the last row and column. *)
Definition placed (H W t : Z) (b : Box Z) : Prop :=
  bx2 b - bx1 b = t /\ by2 b - by1 b = t
  /\ 0 <= bx1 b /\ bx2 b <= W - 1 /\ 0 <= by1 b /\ by2 b <= H - 1.

End Predicates.

(** ** Further extractors and inputs used in the statements *)

Module Fixtures.
Import Geometry Extractor Example.

(** The argument of [forward] passes its assertions and every image can be
    permuted: the list is not empty, its first image is [H x W x 3] and
    every image has three dimensions. *)
Definition accepted_input (cv2_images : list ndarray) : Prop :=
  (exists first, cv2_images !! 0%nat = Some first
                 /\ length (shape first) = 3%nat
                 /\ shape first !! 2%nat = Some 3)
  /\ Forall (fun image => length (shape image) = 3%nat) cv2_images.

(** The extractor of the examples with [use_original]. *)
Definition original_extractor : RegionExtractor := {|
  training := false;
  use_original := true;
  stage := rcnn_stage;
  patch_mode := true;
  min_size := 25;
  stage_nms_thresh := 3 # 10;
  rcnn_score_thresh := 2 # 10;
  rcnn_detections_per_img := 100;
  patch_side_length := 32;
  patch_nms_thresh := 3 # 10
|}%Q.

(** The extractor of the examples with an odd patch size. *)
Definition odd_patch_extractor (s : Stage) : RegionExtractor := {|
  training := false;
  use_original := false;
  stage := s;
  patch_mode := true;
  min_size := 25;
  stage_nms_thresh := 3 # 10;
  rcnn_score_thresh := 2 # 10;
  rcnn_detections_per_img := 100;
  patch_side_length := 33;
  patch_nms_thresh := 3 # 10
|}%Q.

(** A grey-level frame of 100 rows and 120 columns, without a channel
    axis. *)
Definition flat_frame : ndarray := mk_ndarray [100; 120] (fun _ _ _ => 0%Q).

End Fixtures.

(** ** Windows of a frame, for the statements about the patch extractor *)

Module Windows.
Import Geometry Extractor Patches.

(** A box of integers of side [isize] that lies in a frame of [H] rows and
    [W] columns, as a slice does: [0 <= x1], [x2 = x1 + isize <= W], and
    the same for [y]. *)
Definition in_frame (H W isize : Z) (b : Box Z) : Prop :=
  0 <= bx1 b /\ bx1 b + isize = bx2 b /\ bx2 b <= W
  /\ 0 <= by1 b /\ by1 b + isize = by2 b /\ by2 b <= H.

(** The [isize x isize] pixels of channel [k] of the frame from row [y] and
    column [x] on, stored with the element type [dtype]. *)
Definition window `{PixelOps} (dtype : np_dtype) (frame : ndarray)
    (x y isize k : Z) : list (list Q) :=
  (fun i => (fun j => astype dtype (at3 frame (y + i) (x + j) k))
              <$> seqZ 0 isize)
    <$> seqZ 0 isize.

(** The same pixels with their three channels. *)
Definition color_window `{PixelOps} (dtype : np_dtype) (frame : ndarray)
    (x y isize : Z) : list (list (list Q)) :=
  (fun i => (fun j => (fun k => astype dtype (at3 frame (y + i) (x + j) k))
                        <$> [0; 1; 2])
              <$> seqZ 0 isize)
    <$> seqZ 0 isize.


(** Pixel operations for the examples: values are stored as they are and
    the grey level is the mean of the channels. *)
Definition plain_ops : PixelOps := {|
  astype := fun _ v => v;
  cvtColor_BGR2GRAY := fun h w src =>
    if (h =? 0) || (w =? 0) then None
    else Some (fun i j => (src i j 0%Z + src i j 1%Z + src i j 2%Z) / 3)%Q
|}.

(** A frame of 6 rows and 8 columns with 3 channels whose pixel at row [i],
    column [j], channel [k] is [100 i + 10 j + k], and the grey frame of
    its channel 0. *)
Definition ramp_frame : ndarray :=
  mk_ndarray [6; 8; 3] (fun i j k => inject_Z (100 * i + 10 * j + k)).

Definition grey_ramp_frame : ndarray :=
  mk_ndarray [6; 8] (fun i j k => inject_Z (100 * i + 10 * j)).

End Windows.

(** ** Properties of the tiler *)

Module TilerProps.
Import Tiler.

(** The worked example of the tiler: a 64x64 frame and [isize = 32] give
    exactly four tiles, in row-major order, and they cover the frame. *)
Lemma tiled_boxes_64_32 :
  tiled_boxes (64, 64) 32
  = Ok [tile_at 0 0 32; tile_at 32 0 32; tile_at 0 32 32; tile_at 32 32 32].
Proof. vm_compute. reflexivity. Qed.

Lemma tiled_boxes_64_32_covered :
  forall tiles, tiled_boxes (64, 64) 32 = Ok tiles ->
                frame_covered (64, 64) tiles = true.
Proof.
  intros tiles H. rewrite tiled_boxes_64_32 in H.
  injection H as <-. vm_compute. reflexivity.
Qed.

(** C5.  The tiles are meant to cover every pixel of a frame that is
    larger than the tile in both directions.  On a 70x70 frame with
    [isize = 9] the code does not: the stride [61/7] is rounded down by the
    binary64 division, [7 * stride] evaluates to [60.99999999999999], and its
    floor puts the last row and column of tiles at 60 instead of 61, so
    that row 69 and column 69 of the frame are in no tile. *)
Theorem tiled_boxes_70_9_leaves_pixels_uncovered :
  exists tiles,
    tiled_boxes (70, 70) 9 = Ok tiles
    /\ length tiles = 64%nat
    /\ last tiles = Some (tile_at 60 60 9)
    /\ pixel_covered tiles 69 69 = false
    /\ frame_covered (70, 70) tiles = false.
Proof.
  eexists. split; [vm_compute; reflexivity|].
  repeat split; vm_compute; reflexivity.
Qed.

(** C3.  With a frame dimension equal to the tile side the tile count is 1
    and the code does divide by [tile_count - 1 = 0]: there is no special
    case.  The stride is the NaN [0/0], the product [0 * stride] is NaN as
    well, and the origin of the single tile is the integer cast of a NaN,
    not 0. *)
Theorem tiled_boxes_single_tile_divides_by_zero :
  tile_count 32 32 = Ok 1
  /\ tile_stride 32 32 1 = (float_of_Z 0 / float_of_Z 0)%float
  /\ PrimFloat.is_nan (tile_stride 32 32 1) = true
  /\ tile_origin 0 (tile_stride 32 32 1) = None
  /\ tiled_boxes (32, 32) 32 = Ok [mkBox None None None None]
  /\ tiled_boxes (32, 32) 32 <> Ok [tile_at 0 0 32].
Proof.
  repeat split; try (vm_compute; reflexivity).
  vm_compute. discriminate.
Qed.

(** The same happens in a frame smaller than the tile: the stride is
    [-12/0], an infinity, and [0 * stride] is NaN again. *)
Lemma tiled_boxes_small_frame_divides_by_zero :
  tile_count 20 32 = Ok 1
  /\ tile_stride 20 32 1 = neg_infinity
  /\ tile_origin 0 (tile_stride 20 32 1) = None
  /\ tiled_boxes (20, 20) 32 = Ok [mkBox None None None None].
Proof. repeat split; vm_compute; reflexivity. Qed.

(** With two tiles or more along an axis the divisor is not zero and the
    first tile is at the origin. *)
Lemma tiled_boxes_65_32 :
  tiled_boxes (65, 32 + 32) 32
  = Ok [tile_at 0 0 32; tile_at 32 0 32;
        tile_at 0 16 32; tile_at 32 16 32;
        tile_at 0 33 32; tile_at 32 33 32].
Proof. vm_compute. reflexivity. Qed.

End TilerProps.

(** ** Properties of the rescaling and of the patch boxes *)

Module GeometryProps.
Import Geometry.

Local Open Scope Q_scope.


Lemma float_div_ok (s s_orig : Z) :
  s_orig <> 0%Z -> float_div s s_orig = Ok (inject_Z s / inject_Z s_orig).
Proof.
  intros Hs. unfold float_div.
  destruct (Z.eqb_spec s_orig 0) as [->|_]; [contradiction|reflexivity].
Qed.


(** Rounding gives an integer at distance at most one half. *)
Lemma round_half_even_close (q : Q) :
  q - (1 # 2) <= inject_Z (round_half_even q) <= q + (1 # 2).
Proof.
  unfold round_half_even.
  pose proof (Qfloor_le q) as Hlo.
  pose proof (Qlt_floor q) as Hhi.
  rewrite inject_Z_plus in Hhi. change (inject_Z 1) with 1 in Hhi.
  destruct (q - inject_Z (Qfloor q) ?= 1 # 2) eqn:Hc.
  - apply Qeq_alt in Hc.
    destruct (Z.even (Qfloor q));
      [|rewrite inject_Z_plus; change (inject_Z 1) with 1]; split; lra.
  - apply Qlt_alt in Hc. split; lra.
  - apply Qgt_alt in Hc. rewrite inject_Z_plus.
    change (inject_Z 1) with 1. split; lra.
Qed.

Lemma trunc_inject_Z (z : Z) : trunc (inject_Z z) = z.
Proof. unfold trunc. simpl. apply Z.quot_1_r. Qed.

Lemma half_quot (z : Z) : half z = Z.quot z 2.
Proof. unfold half, trunc. simpl. rewrite Z.mul_1_r. reflexivity. Qed.

Lemma half_even (z : Z) : (z mod 2 = 0)%Z -> (2 * half z = z)%Z.
Proof.
  intros Hz. rewrite half_quot.
  apply Z.rem_mod_eq_0 in Hz; [|lia].
  pose proof (Z.quot_rem' z 2). lia.
Qed.

Lemma make_sides_even_spec (b : Box Z) :
  let b' := make_sides_even b in
  ((bx2 b' - bx1 b') mod 2 = 0 /\ (by2 b' - by1 b') mod 2 = 0)%Z.
Proof.
  unfold make_sides_even. cbn.
  destruct (Z.eqb_spec ((bx2 b - bx1 b) mod 2) 1),
           (Z.eqb_spec ((by2 b - by1 b) mod 2) 1);
    split; Z.to_euclidean_division_equations; lia.
Qed.

Lemma forallb_fmap_true {A B} (P : B -> bool) (f : A -> B) (l : list A) :
  (forall a, P (f a) = true) -> forallb P (f <$> l) = true.
Proof.
  intros HP. induction l as [|a l IH]; cbn; [reflexivity|].
  rewrite HP. exact IH.
Qed.

(** With an even target the assertions hold and the result is computed row
    by row. *)
Lemma patch_boxes_of_int_boxes_ok (boxes : list (Box Z)) (fs : size) (t : Z) :
  (t mod 2 = 0)%Z ->
  patch_boxes_of_int_boxes boxes fs t
  = Ok ((fun b => box_map inject_Z (place_row fs t (make_sides_even b)))
          <$> boxes).
Proof.
  intros Ht. unfold patch_boxes_of_int_boxes.
  rewrite Ht. cbn [Z.eqb].
  rewrite !forallb_fmap_true.
  - f_equal. rewrite <- !list_fmap_compose. reflexivity.
  - intros b. apply Z.eqb_eq, make_sides_even_spec.
  - intros b. apply Z.eqb_eq, make_sides_even_spec.
Qed.

(** With an odd target nothing is returned. *)
Lemma patch_boxes_of_int_boxes_odd (boxes : list (Box Z)) (fs : size) (t : Z) :
  (t mod 2 <> 0)%Z -> patch_boxes_of_int_boxes boxes fs t = Raise AssertionError.
Proof.
  intros Ht. unfold patch_boxes_of_int_boxes.
  destruct (Z.eqb_spec (t mod 2) 0); [contradiction|reflexivity].
Qed.

Ltac unfold_steps :=
  unfold place_row, shift_from_bottom, shift_from_right, shift_from_top,
    shift_from_left, add_deltas, clamp_overhang; cbn [bx1 by1 bx2 by2 fst snd].

Ltac split_clamps :=
  repeat match goal with
         | |- context [Z.ltb ?a ?b] => destruct (Z.ltb_spec a b)
         end.





Lemma inject_Z_nonneg (a : Z) : (0 <= a)%Z -> 0 <= inject_Z a.
Proof. intros Ha. change 0 with (inject_Z 0). rewrite <- Zle_Qle. exact Ha. Qed.

(** What [convert_to_patch_boxes] returns for an even target, row by row. *)
Lemma convert_to_patch_boxes_ok (boxes : list (Box Q)) (fs : size) (t : Z) :
  (t mod 2 = 0)%Z ->
  snd (convert_to_patch_boxes boxes fs t)
  = Ok ((fun b => box_map inject_Z
                    (place_row fs t
                       (make_sides_even (box_map round_half_even b))))
          <$> boxes).
Proof.
  intros Ht. unfold convert_to_patch_boxes, round_. cbn [snd].
  rewrite patch_boxes_of_int_boxes_ok by exact Ht.
  f_equal. rewrite <- !list_fmap_compose.
  apply list_fmap_ext. intros i b _. cbn.
  do 3 f_equal. unfold box_map. cbn [bx1 by1 bx2 by2].
  rewrite !trunc_inject_Z. reflexivity.
Qed.

Lemma convert_to_patch_boxes_odd (boxes : list (Box Q)) (fs : size) (t : Z) :
  (t mod 2 <> 0)%Z ->
  snd (convert_to_patch_boxes boxes fs t) = Raise AssertionError.
Proof.
  intros Ht. unfold convert_to_patch_boxes. cbn [snd].
  apply patch_boxes_of_int_boxes_odd, Ht.
Qed.








(** A zero dimension of the space rescaled from raises instead. *)
Lemma rescale_from_empty_space (boxes : list (Box Q)) (w : Z) (B : size) :
  update_box_sizes_following_image_resize boxes (0%Z, w) B
  = Raise ZeroDivisionError.
Proof. reflexivity. Qed.

(** C9.  [convert_to_patch_boxes] changes its argument: whatever the frame
    size and the target, and also when an assertion fails, the caller's
    tensor holds after the call the coordinates rounded to the nearest
    integer (halves to even) instead of the original ones. *)
Theorem convert_to_patch_boxes_rounds_argument_in_place
    (boxes : list (Box Q)) (frame_size : size) (target_side_length : Z) :
  let after := fst (convert_to_patch_boxes boxes frame_size target_side_length) in
  length after = length boxes
  /\ forall (i : nat) (b : Box Q),
       boxes !! i = Some b ->
       exists b',
         after !! i = Some b'
         /\ bx1 b' = inject_Z (round_half_even (bx1 b))
         /\ by1 b' = inject_Z (round_half_even (by1 b))
         /\ bx2 b' = inject_Z (round_half_even (bx2 b))
         /\ by2 b' = inject_Z (round_half_even (by2 b))
         /\ bx1 b - (1 # 2) <= bx1 b' <= bx1 b + (1 # 2)
         /\ by1 b - (1 # 2) <= by1 b' <= by1 b + (1 # 2)
         /\ bx2 b - (1 # 2) <= bx2 b' <= bx2 b + (1 # 2)
         /\ by2 b - (1 # 2) <= by2 b' <= by2 b + (1 # 2).
Proof.
  cbn. unfold round_. split; [apply length_fmap|].
  intros i b Hb. eexists. split.
  - rewrite list_lookup_fmap, Hb. reflexivity.
  - cbn [box_map bx1 by1 bx2 by2].
    repeat split; try reflexivity; apply round_half_even_close.
Qed.

(** An instance: the argument differs after the call, and from the boxes
    returned. *)
Lemma convert_to_patch_boxes_argument_changed :
  convert_to_patch_boxes [mkBox (21 # 2) (47 # 4) (123 # 2) 57] (480, 640)%Z 32
  = ([mkBox 10 12 62 57], Ok [mkBox 20 19 52 51]).
Proof. reflexivity. Qed.

End GeometryProps.

(** ** Properties of the extractor *)

Module ExtractorProps.
Import Geometry Extractor Example.

Lemma arange_1000 :
  arange 1000 0 (-1) = (fun i => 1000 - Z.of_nat i) <$> seq 0 1000.
Proof.
  unfold arange.
  change (Z.to_nat _) with 1000%nat.
  apply list_fmap_ext. intros _ i _. lia.
Qed.

Lemma length_pseudo_scores : length pseudo_scores = 1000%nat.
Proof.
  unfold pseudo_scores. rewrite arange_1000, !length_fmap. apply length_seq.
Qed.

Lemma lookup_pseudo_scores (i : nat) (a : Q) :
  pseudo_scores !! i = Some a ->
  (i < 1000)%nat /\ a = inject_Z (1000 - Z.of_nat i).
Proof.
  unfold pseudo_scores. rewrite arange_1000, !list_lookup_fmap.
  destruct (seq 0 1000 !! i) as [k|] eqn:Hk; [|discriminate].
  apply lookup_seq in Hk as [-> Hi]. cbn. intros [= <-]. split; [exact Hi|].
  reflexivity.
Qed.

Lemma pseudo_scores_decreasing : strictly_decreasing pseudo_scores.
Proof.
  intros i j a b Hij Ha Hb.
  apply lookup_pseudo_scores in Ha as [_ ->].
  apply lookup_pseudo_scores in Hb as [_ ->].
  rewrite <- Zlt_Qlt. lia.
Qed.

Lemma slice_to_decreasing (n : nat) (xs : list Q) :
  strictly_decreasing xs -> strictly_decreasing (slice_to n xs).
Proof.
  intros Hxs i j a b Hij Ha Hb. unfold slice_to in *.
  apply lookup_take_Some in Ha as [Ha _].
  apply lookup_take_Some in Hb as [Hb _].
  exact (Hxs i j a b Hij Ha Hb).
Qed.

(** C10.  The slice [pseudo_scores[:N]] passed to NMS for [N] boxes has [N]
    elements, strictly decreasing along the index, exactly when [N] is at
    most 1000; for more boxes it stops at 1000 elements. *)
Theorem pseudo_scores_slice_well_formed (N : nat) :
  (length (slice_to N pseudo_scores) = N
   /\ strictly_decreasing (slice_to N pseudo_scores))
  <-> (N <= 1000)%nat.
Proof.
  unfold slice_to at 1. rewrite length_take, length_pseudo_scores. split.
  - intros [Hlen _]. lia.
  - intros HN. split; [lia|].
    apply slice_to_decreasing, pseudo_scores_decreasing.
Qed.

Lemma pseudo_scores_slice_too_long (N : nat) :
  (1000 < N)%nat -> length (slice_to N pseudo_scores) = 1000%nat.
Proof.
  intros HN. unfold slice_to. rewrite length_take, length_pseudo_scores. lia.
Qed.

(** C7.  In training mode [forward] raises [ValueError] without a call of
    the network, for every argument, well-formed or not, and every
    network. *)
Theorem forward_raises_in_training_mode
    `{Detector} (self : RegionExtractor) (cv2_images : list ndarray) :
  training self = true ->
  forward self cv2_images = ([], Raise ValueError).
Proof. intros Htraining. unfold forward. rewrite Htraining. reflexivity. Qed.

Lemma forward_raises_in_training_mode_witness :
  training (training_extractor rcnn_stage) = true
  /\ forward (H := stub_detector) (training_extractor rcnn_stage)
             [black_frame; black_frame]
     = ([], Raise ValueError).
Proof.
  split; [reflexivity|].
  apply (forward_raises_in_training_mode (H := stub_detector)
           (training_extractor rcnn_stage) [black_frame; black_frame]).
  reflexivity.
Defined.

(** In evaluation mode the same call goes through the network. *)
Lemma forward_in_eval_mode_calls_network :
  fst (forward (H := stub_detector) (extractor rcnn_stage)
               [black_frame; black_frame])
  = [CallTransform; CallBackbone; CallRpn; CallRoiPool; CallBoxHead;
     CallBoxPredictor].
Proof. vm_compute. reflexivity. Qed.

(** Whatever [forward] returns without [use_original] is one array of
    boxes, entry 0 of the list it built: never a list with one entry per
    frame and never scores. *)
Lemma forward_returns_one_array
    `{Detector} (self : RegionExtractor) (cv2_images : list ndarray)
    (out : forward_output) :
  use_original self = false ->
  snd (forward self cv2_images) = Ok out ->
  exists (input_list : list ndarray) (output_boxes : list (list (Box Q)))
         (output_scores : list (list Q)) (boxes : list (Box Q)),
    for_each to_input cv2_images = Ok input_list
    /\ snd (forward_outputs self input_list) = Ok (output_boxes, output_scores)
    /\ output_boxes !! 0%nat = Some boxes
    /\ out = OneArray boxes.
Proof.
  intros Horig. unfold forward. rewrite Horig.
  destruct (training self); [discriminate|].
  destruct (item cv2_images 0) as [first|e0]; [|discriminate].
  cbn [lift bind].
  destruct (decide (length (shape first) = 3%nat)); [|discriminate].
  destruct (decide (shape first !! 2%nat = Some 3)); [|discriminate].
  destruct (for_each to_input cv2_images) as [input_list|e1]; [|discriminate].
  cbn [lift bind].
  destruct (forward_outputs self input_list)
    as [t [[output_boxes output_scores]|e2]] eqn:Houtputs; [|discriminate].
  cbn [bind lift]. unfold item.
  destruct (output_boxes !! 0%nat) as [boxes|] eqn:Hboxes; [|discriminate].
  cbn [app ret snd]. intros [= <-].
  exists input_list, output_boxes, output_scores, boxes.
  rewrite Houtputs. auto.
Qed.

(** C1.  [forward] is meant to return the final boxes of every frame, and
    the scores in the [rcnn] stage.  On two frames in the [rcnn] stage it
    builds the boxes and the scores of both frames and then returns entry
    0 of the boxes only: the boxes of the second frame and all the scores
    are dropped. *)
Theorem forward_returns_first_frame_only :
  exists input_list,
    for_each to_input [black_frame; black_frame] = Ok input_list
    /\ snd (forward_outputs (H := stub_detector) (extractor rcnn_stage) input_list)
       = Ok ([[mkBox 19 17 51 49]; [mkBox 49 17 81 49]],
             [[9 # 10]; [9 # 10]])%Q
    /\ snd (forward (H := stub_detector) (extractor rcnn_stage)
                    [black_frame; black_frame])
       = Ok (OneArray [mkBox 19 17 51 49])%Q.
Proof.
  eexists. split; [reflexivity|]. split; vm_compute; reflexivity.
Qed.

(** With [use_original] the list of the base model comes back whole. *)
Lemma forward_use_original
    `{Detector} (self : RegionExtractor) (cv2_images : list ndarray)
    (out : forward_output) :
  use_original self = true ->
  snd (forward self cv2_images) = Ok out ->
  exists input_list,
    for_each to_input cv2_images = Ok input_list
    /\ out = PerFrame (base_model input_list).
Proof.
  intros Horig. unfold forward. rewrite Horig.
  destruct (training self); [discriminate|].
  destruct (item cv2_images 0) as [first|e0]; [|discriminate].
  cbn [lift bind].
  destruct (decide (length (shape first) = 3%nat)); [|discriminate].
  destruct (decide (shape first !! 2%nat = Some 3)); [|discriminate].
  destruct (for_each to_input cv2_images) as [input_list|e1]; [|discriminate].
  cbn. intros [= <-]. exists input_list. auto.
Qed.

End ExtractorProps.

(** ** Further properties of the rescaling and of the patch boxes *)

Module GeometryExtra.
Import Geometry GeometryProps Predicates.

Local Open Scope Q_scope.

(** X1.  Rescaling raises [ZeroDivisionError] when the height or the width
    of the space rescaled from is zero, whatever the boxes; otherwise it
    returns one box per box given. *)
Theorem rescale_error_or_same_length
    (boxes : list (Box Q)) (original_size new_size : size) :
  (fst original_size = 0%Z \/ snd original_size = 0%Z ->
   update_box_sizes_following_image_resize boxes original_size new_size
   = Raise ZeroDivisionError)
  /\ (fst original_size <> 0%Z /\ snd original_size <> 0%Z ->
      exists out,
        update_box_sizes_following_image_resize boxes original_size new_size
        = Ok out
        /\ length out = length boxes).
Proof.
  unfold update_box_sizes_following_image_resize, float_div. split.
  - intros [Hh|Hw].
    + rewrite Hh. reflexivity.
    + rewrite Hw. destruct (fst original_size =? 0)%Z; reflexivity.
  - intros [Hh Hw].
    destruct (Z.eqb_spec (fst original_size) 0); [contradiction|].
    destruct (Z.eqb_spec (snd original_size) 0); [contradiction|].
    cbn [rbind]. eexists. split; [reflexivity|]. apply length_fmap.
Qed.




Lemma ratio_nonneg (a b : Z) :
  (0 < a)%Z -> (0 <= b)%Z -> 0 <= inject_Z b / inject_Z a.
Proof.
  intros Ha Hb. apply Qle_shift_div_l.
  - change 0 with (inject_Z 0). rewrite <- Zlt_Qlt. exact Ha.
  - rewrite Qmult_0_l. apply inject_Z_nonneg, Hb.
Qed.

(** X3.  Between spaces of positive size (the new one may be empty)
    rescaling keeps the order of the corners: a box with [x1 <= x2] and
    [y1 <= y2] is mapped to a box with [x1 <= x2] and [y1 <= y2], at the
    same position of the batch. *)
Theorem rescale_keeps_corner_order
    (boxes : list (Box Q)) (original_size new_size : size) :
  (0 < fst original_size)%Z -> (0 < snd original_size)%Z ->
  (0 <= fst new_size)%Z -> (0 <= snd new_size)%Z ->
  exists out,
    update_box_sizes_following_image_resize boxes original_size new_size
    = Ok out
    /\ Forall2 (fun b b' => (bx1 b <= bx2 b -> bx1 b' <= bx2 b')
                            /\ (by1 b <= by2 b -> by1 b' <= by2 b'))
               boxes out.
Proof.
  intros HAh HAw HBh HBw.
  unfold update_box_sizes_following_image_resize.
  rewrite !float_div_ok by lia.
  cbn [rbind]. eexists. split; [reflexivity|].
  induction boxes as [|b boxes IH]; cbn; constructor; [|exact IH].
  cbn [bx1 by1 bx2 by2].
  split; intros Hle; apply Qmult_le_compat_r;
    first [exact Hle | apply ratio_nonneg; assumption].
Qed.

Lemma rescale_keeps_corner_order_witness :
  (0 < 480 /\ 0 < 640 /\ 0 <= 800 /\ 0 <= 1067)%Z
  /\ exists out,
       update_box_sizes_following_image_resize
         [mkBox 10 20 (61 # 2) 45] (480, 640)%Z (800, 1067)%Z = Ok out
       /\ Forall2 (fun b b' => (bx1 b <= bx2 b -> bx1 b' <= bx2 b')
                               /\ (by1 b <= by2 b -> by1 b' <= by2 b'))
                  [mkBox 10 20 (61 # 2) 45] out.
Proof.
  split; [lia|].
  apply (rescale_keeps_corner_order [mkBox 10 20 (61 # 2) 45]
                                    (480, 640)%Z (800, 1067)%Z); cbn; lia.
Defined.

(** X4.  The normalizer returns boxes exactly when the target side length
    is even, and raises [AssertionError] otherwise; the assertions on the
    evenness of the widths and heights never fail. *)
Theorem convert_to_patch_boxes_returns_iff_even
    (boxes : list (Box Q)) (frame_size : size) (target_side_length : Z) :
  ((exists out,
       snd (convert_to_patch_boxes boxes frame_size target_side_length)
       = Ok out)
   <-> (target_side_length mod 2 = 0)%Z)
  /\ ((target_side_length mod 2 <> 0)%Z ->
      snd (convert_to_patch_boxes boxes frame_size target_side_length)
      = Raise AssertionError).
Proof.
  split; [split|].
  - intros [out Hout].
    destruct (Z.eq_dec (target_side_length mod 2)%Z 0%Z) as [Ht|Ht];
      [exact Ht|].
    rewrite convert_to_patch_boxes_odd in Hout by exact Ht. discriminate.
  - intros Ht. eexists. apply convert_to_patch_boxes_ok, Ht.
  - apply convert_to_patch_boxes_odd.
Qed.

Lemma round_half_even_inject_Z (z : Z) : round_half_even (inject_Z z) = z.
Proof.
  unfold round_half_even. rewrite Qfloor_Z.
  assert (Hc : (inject_Z z - inject_Z z ?= 1 # 2) = Lt).
  { apply (proj1 (Qlt_alt _ _)). lra. }
  rewrite Hc. reflexivity.
Qed.

Lemma box_eta {A} (b : Box A) : mkBox (bx1 b) (by1 b) (bx2 b) (by2 b) = b.
Proof. destruct b. reflexivity. Qed.

Lemma placed_row_fixed (H W t : Z) (b : Box Z) :
  (t mod 2 = 0)%Z -> placed H W t b ->
  place_row (H, W) t (make_sides_even b) = b.
Proof.
  intros Ht (Hw & Hh & Hx1 & Hx2 & Hy1 & Hy2).
  unfold make_sides_even. rewrite Hw, Hh.
  destruct (Z.eqb_spec (t mod 2) 1) as [Hodd|_]; [lia|].
  rewrite box_eta.
  assert (H0 : half 0 = 0%Z) by reflexivity.
  unfold_steps. rewrite Hw, Hh, !Z.sub_diag, H0.
  destruct b as [x1 y1 x2 y2]. cbn [bx1 by1 bx2 by2] in *.
  split_clamps; f_equal; lia.
Qed.

(** X5.  Boxes with integer coordinates that already have the target
    sides and lie inside the frame, between 0 and the last row and column,
    are fixed by the normalizer: it returns them as they are and leaves the
    caller's tensor as it was. *)
Theorem convert_to_patch_boxes_fixes_placed_boxes
    (boxes : list (Box Z)) (H W t : Z) :
  (t mod 2 = 0)%Z ->
  Forall (placed H W t) boxes ->
  convert_to_patch_boxes (box_map inject_Z <$> boxes) (H, W) t
  = (box_map inject_Z <$> boxes, Ok (box_map inject_Z <$> boxes)).
Proof.
  intros Ht Hboxes.
  assert (Hround : round_ (box_map inject_Z <$> boxes)
                   = box_map inject_Z <$> boxes).
  { unfold round_. rewrite <- list_fmap_compose.
    apply list_fmap_ext. intros _ b _. cbn.
    unfold box_map. cbn [bx1 by1 bx2 by2].
    rewrite !round_half_even_inject_Z. reflexivity. }
  rewrite (surjective_pairing (convert_to_patch_boxes _ _ _)).
  f_equal.
  - exact Hround.
  - rewrite convert_to_patch_boxes_ok by exact Ht. f_equal.
    rewrite <- list_fmap_compose. clear Hround.
    induction Hboxes as [|b boxes Hb _ IH]; [reflexivity|].
    cbn. f_equal; [|exact IH]. f_equal.
    replace (box_map round_half_even (box_map inject_Z b)) with b.
    + apply (placed_row_fixed H W t b Ht Hb).
    + unfold box_map. cbn [bx1 by1 bx2 by2].
      rewrite !round_half_even_inject_Z. symmetry. apply box_eta.
Qed.

Lemma convert_to_patch_boxes_fixes_placed_boxes_witness :
  (32 mod 2 = 0)%Z
  /\ Forall (placed 100 120 32) [mkBox 0 0 32 32; mkBox 87 10 119 42]%Z
  /\ convert_to_patch_boxes
       (box_map inject_Z <$> [mkBox 0 0 32 32; mkBox 87 10 119 42]%Z)
       (100, 120)%Z 32
     = (box_map inject_Z <$> [mkBox 0 0 32 32; mkBox 87 10 119 42]%Z,
        Ok (box_map inject_Z <$> [mkBox 0 0 32 32; mkBox 87 10 119 42]%Z)).
Proof.
  assert (Hplaced : Forall (placed 100 120 32)
                           [mkBox 0 0 32 32; mkBox 87 10 119 42]%Z).
  { repeat constructor; cbn; lia. }
  split; [reflexivity|]. split; [exact Hplaced|].
  apply (convert_to_patch_boxes_fixes_placed_boxes
           [mkBox 0 0 32 32; mkBox 87 10 119 42]%Z 100 120 32
           eq_refl Hplaced).
Defined.



Lemma place_row_narrow (H W t : Z) (b : Box Z) :
  (t mod 2 = 0)%Z -> (W <= t)%Z ->
  ((bx2 b - bx1 b) mod 2 = 0)%Z ->
  let r := place_row (H, W) t b in
  (bx2 r = W - 1 /\ bx1 r = W - 1 - t)%Z.
Proof.
  intros Ht HW Hw.
  assert (Hx1 : (2 * half (bx2 b - bx1 b - t) = bx2 b - bx1 b - t)%Z)
    by (apply half_even; Z.to_euclidean_division_equations; lia).
  assert (Hx2 : (2 * half (t - (bx2 b - bx1 b)) = t - (bx2 b - bx1 b))%Z)
    by (apply half_even; Z.to_euclidean_division_equations; lia).
  unfold_steps. split_clamps; lia.
Qed.

Lemma place_row_low (H W t : Z) (b : Box Z) :
  (t mod 2 = 0)%Z -> (H <= t)%Z ->
  ((by2 b - by1 b) mod 2 = 0)%Z ->
  let r := place_row (H, W) t b in
  (by2 r = H - 1 /\ by1 r = H - 1 - t)%Z.
Proof.
  intros Ht HH Hh.
  assert (Hy1 : (2 * half (by2 b - by1 b - t) = by2 b - by1 b - t)%Z)
    by (apply half_even; Z.to_euclidean_division_equations; lia).
  assert (Hy2 : (2 * half (t - (by2 b - by1 b)) = t - (by2 b - by1 b))%Z)
    by (apply half_even; Z.to_euclidean_division_equations; lia).
  unfold_steps. split_clamps; lia.
Qed.



End GeometryExtra.

(** ** Further properties of the extractor *)

Module ExtractorExtra.
Import Geometry Extractor Example GeometryProps Predicates Fixtures.

Lemma rbind_Ok {A B} (m : result A) (k : A -> result B) (b : B) :
  rbind m k = Ok b -> exists a, m = Ok a /\ k a = Ok b.
Proof. destruct m as [a|e]; cbn; [eauto|discriminate]. Qed.

Ltac invert_rbind H :=
  let a := fresh "v" in
  let Ha := fresh "Hv" in
  apply rbind_Ok in H as (a & Ha & H).

(** What [xs[keep]] returns: for each index kept the element there. *)
Lemma index_select_Ok {A} (xs : list A) (keep : list nat) (ys : list A) :
  index_select xs keep = Ok ys ->
  Forall2 (fun i y => xs !! i = Some y) keep ys.
Proof.
  revert ys. induction keep as [|i keep IH]; cbn; intros ys Hys.
  - injection Hys as <-. constructor.
  - invert_rbind Hys. invert_rbind Hys. injection Hys as <-.
    constructor; [|apply IH; assumption].
    unfold item in Hv. destruct (xs !! i); [congruence|discriminate].
Qed.

Lemma index_select_length {A} (xs : list A) (keep : list nat) (ys : list A) :
  index_select xs keep = Ok ys -> length ys = length keep.
Proof.
  intros Hys. symmetry.
  exact (Forall2_length _ _ _ (index_select_Ok _ _ _ Hys)).
Qed.

Lemma index_select_Forall {A} (P : A -> Prop)
    (xs : list A) (keep : list nat) (ys : list A) :
  index_select xs keep = Ok ys -> Forall P xs -> Forall P ys.
Proof.
  intros Hys HP. apply index_select_Ok in Hys.
  induction Hys as [|i y keep ys Hi _ IH]; constructor; [|exact IH].
  rewrite Forall_forall in HP. apply HP.
  eapply list_elem_of_lookup_2, Hi.
Qed.

Lemma nonzero_spec (mask : list bool) (i : nat) :
  i ∈ nonzero mask <-> mask !! i = Some true.
Proof.
  unfold nonzero. rewrite list_elem_of_fmap. split.
  - intros ([j b] & -> & Hin).
    apply list_elem_of_filter in Hin as [Hb Hin]. cbn in Hb. subst b.
    apply elem_of_lookup_imap in Hin as (k & b & [= -> ->] & Hk). exact Hk.
  - intros Hi. exists (i, true). split; [reflexivity|].
    apply list_elem_of_filter. split; [reflexivity|].
    apply (elem_of_lookup_imap_2 (fun i b => (i, b))), Hi.
Qed.

(** Selecting with the indices of a mask keeps elements that satisfy the
    test of the mask only. *)
Lemma index_select_nonzero {A} (f : A -> bool) (xs ys : list A) :
  index_select xs (nonzero (f <$> xs)) = Ok ys ->
  Forall (fun y => f y = true) ys.
Proof.
  intros Hys. apply index_select_Ok in Hys.
  assert (Hkeep : Forall (fun i => (f <$> xs) !! i = Some true)
                         (nonzero (f <$> xs))).
  { apply Forall_forall. intros i Hi. apply nonzero_spec, Hi. }
  induction Hys as [|i y keep ys Hi _ IH]; constructor.
  - apply Forall_inv in Hkeep. rewrite list_lookup_fmap, Hi in Hkeep.
    cbn in Hkeep. congruence.
  - apply IH. eapply Forall_inv_tail, Hkeep.
Qed.

Lemma for_each_length {A B} (f : A -> result B) (xs : list A) (ys : list B) :
  for_each f xs = Ok ys -> length ys = length xs.
Proof.
  revert ys. induction xs as [|x xs IH]; cbn; intros ys Hys.
  - injection Hys as <-. reflexivity.
  - invert_rbind Hys. invert_rbind Hys. injection Hys as <-.
    cbn. f_equal. apply IH. assumption.
Qed.

Lemma split_sizes_length {A} (sizes : list nat) (t : list A)
    (parts : list (list A)) :
  split_sizes sizes t = Ok parts -> length parts = length sizes.
Proof.
  revert t parts. induction sizes as [|n sizes IH]; cbn; intros t parts Hp.
  - destruct (decide (length t = 0%nat)); [|discriminate].
    injection Hp as <-. reflexivity.
  - destruct (decide (n <= length t)%nat); [|discriminate].
    invert_rbind Hp. injection Hp as <-. cbn. f_equal. eapply IH, Hv.
Qed.

Lemma arange_from_0 (n : nat) (l : Z) (i : nat) :
  arange 0 (Z.of_nat n) 1 !! i = Some l -> l = Z.of_nat i /\ (i < n)%nat.
Proof.
  unfold arange. cbn [Z.ltb Z.compare].
  replace ((Z.of_nat n - 0 + 1 - 1) / 1) with (Z.of_nat n)
    by (rewrite Z.div_1_r; lia).
  rewrite Nat2Z.id, list_lookup_fmap.
  destruct (seq 0 n !! i) as [k|] eqn:Hk; [|discriminate].
  apply lookup_seq in Hk as [-> Hi]. cbn. intros [= <-]. split; [lia|exact Hi].
Qed.

Lemma label_rows_foreground {A} (num_classes : nat) (rows : list A) :
  Forall (fun l => 1 <= l < Z.of_nat num_classes)
         (concat (drop 1 <$>
                    ((fun _ => arange 0 (Z.of_nat num_classes) 1) <$> rows))).
Proof.
  apply Forall_forall. intros l Hl.
  apply list_elem_of_In, in_concat in Hl as (row & Hrow & Hl).
  apply list_elem_of_In, list_elem_of_fmap in Hrow as (full & -> & Hfull).
  apply list_elem_of_fmap in Hfull as (_ & -> & _).
  apply list_elem_of_In, list_elem_of_lookup in Hl as [i Hi].
  rewrite lookup_drop in Hi. apply arange_from_0 in Hi as [-> Hi]. lia.
Qed.

Section PostprocessImage.
Context `{Detector}.
Variable self : RegionExtractor.

Lemma postprocess_image_facts (num_classes : nat)
    (boxes : list (list (Box Q))) (scores : list (list Q)) (image_shape : size)
    (bs : list (Box Q)) (ss : list Q) (ls : list Z) :
  postprocess_image self num_classes boxes scores image_shape
  = Ok (bs, ss, ls) ->
  length bs = length ss /\ length ls = length ss
  /\ (length ss <= rcnn_detections_per_img self)%nat
  /\ Forall (fun s => (rcnn_score_thresh self < s)%Q) ss
  /\ Forall (fun l => 1 <= l < Z.of_nat num_classes) ls.
Proof.
  unfold postprocess_image. intros Hpost.
  invert_rbind Hpost. rename v into boxes1, Hv into Hboxes1.
  invert_rbind Hpost. rename v into scores1, Hv into Hscores1.
  invert_rbind Hpost. rename v into labels1, Hv into Hlabels1.
  invert_rbind Hpost. rename v into boxes2, Hv into Hboxes2.
  invert_rbind Hpost. rename v into scores2, Hv into Hscores2.
  invert_rbind Hpost. rename v into labels2, Hv into Hlabels2.
  invert_rbind Hpost. rename v into boxes3, Hv into Hboxes3.
  invert_rbind Hpost. rename v into scores3, Hv into Hscores3.
  invert_rbind Hpost. rename v into labels3, Hv into Hlabels3.
  injection Hpost as <- <- <-.
  apply index_select_nonzero in Hscores1 as Habove.
  pose proof (index_select_Forall _ _ _ _ Hscores2 Habove) as Habove2.
  pose proof (index_select_Forall _ _ _ _ Hscores3 Habove2) as Habove3.
  pose proof (index_select_Forall _ _ _ _ Hlabels1
                (label_rows_foreground num_classes scores)) as Hfg1.
  pose proof (index_select_Forall _ _ _ _ Hlabels2 Hfg1) as Hfg2.
  pose proof (index_select_Forall _ _ _ _ Hlabels3 Hfg2) as Hfg3.
  apply index_select_length in Hboxes3, Hscores3, Hlabels3.
  unfold slice_to in *. rewrite length_take in *.
  repeat split; try lia.
  - eapply Forall_impl; [exact Habove3|]. cbn. intros s Hs.
    apply Qnot_le_lt. intros Hle. apply Qle_bool_iff in Hle.
    rewrite Hle in Hs. discriminate.
  - exact Hfg3.
Qed.

(** X8.  For one image, [postprocess_detections] returns as many scores
    and as many labels as boxes, and at most [rcnn_detections_per_img] of
    them, whatever the network and its NMS return. *)
Theorem postprocess_image_aligned_and_capped (num_classes : nat)
    (boxes : list (list (Box Q))) (scores : list (list Q)) (image_shape : size)
    (bs : list (Box Q)) (ss : list Q) (ls : list Z) :
  postprocess_image self num_classes boxes scores image_shape
  = Ok (bs, ss, ls) ->
  length bs = length ss /\ length ls = length ss
  /\ (length bs <= rcnn_detections_per_img self)%nat.
Proof.
  intros Hpost.
  destruct (postprocess_image_facts _ _ _ _ _ _ _ Hpost) as (Hb & Hl & Hcap & _).
  repeat split; [exact Hb | exact Hl | lia].
Qed.

(** X9.  Every score that [postprocess_detections] returns is strictly
    greater than [rcnn_score_thresh]. *)
Theorem postprocess_image_scores_above_threshold (num_classes : nat)
    (boxes : list (list (Box Q))) (scores : list (list Q)) (image_shape : size)
    (bs : list (Box Q)) (ss : list Q) (ls : list Z) :
  postprocess_image self num_classes boxes scores image_shape
  = Ok (bs, ss, ls) ->
  forall s, s ∈ ss -> (rcnn_score_thresh self < s)%Q.
Proof.
  intros Hpost.
  destruct (postprocess_image_facts _ _ _ _ _ _ _ Hpost) as (_ & _ & _ & Hs & _).
  apply Forall_forall, Hs.
Qed.

(** X10.  No label that [postprocess_detections] returns is the
    background label 0: every label is a class index between 1 and
    [num_classes - 1]. *)
Theorem postprocess_image_labels_foreground (num_classes : nat)
    (boxes : list (list (Box Q))) (scores : list (list Q)) (image_shape : size)
    (bs : list (Box Q)) (ss : list Q) (ls : list Z) :
  postprocess_image self num_classes boxes scores image_shape
  = Ok (bs, ss, ls) ->
  forall l, l ∈ ls -> 1 <= l < Z.of_nat num_classes.
Proof.
  intros Hpost.
  destruct (postprocess_image_facts _ _ _ _ _ _ _ Hpost) as (_ & _ & _ & _ & Hl).
  apply Forall_forall, Hl.
Qed.

(** X11.  [postprocess_detections] returns one entry per image: as many as
    there are proposal lists, or image shapes if these are fewer. *)
Theorem postprocess_detections_one_entry_per_image
    (class_logits : list (list Q)) (box_regression : regression)
    (proposals : list (list (Box Q))) (image_shapes : list size)
    (detections : list (list (Box Q) * list Q * list Z)) :
  postprocess_detections self class_logits box_regression proposals image_shapes
  = Ok detections ->
  length detections = Nat.min (length proposals) (length image_shapes).
Proof.
  unfold postprocess_detections. intros Hpost.
  invert_rbind Hpost. rename v into pred_boxes, Hv into Hboxes.
  invert_rbind Hpost. rename v into pred_scores, Hv into Hscores.
  apply for_each_length in Hpost.
  apply split_sizes_length in Hboxes, Hscores.
  rewrite Hpost, !length_zip, Hboxes, Hscores, length_fmap. lia.
Qed.

End PostprocessImage.

Lemma postprocess_image_aligned_and_capped_witness :
  postprocess_image (H := stub_detector) (extractor rcnn_stage) 2
    [[mkBox 10 10 60 55; mkBox 10 10 60 55];
     [mkBox 40 10 90 55; mkBox 40 10 90 55];
     [mkBox 0 0 30 30; mkBox 0 0 30 30]]%Q
    [[1 # 10; 9 # 10]; [2 # 10; 8 # 10]; [9 # 10; 1 # 10]]%Q (100, 120)
  = Ok ([mkBox 10 10 60 55; mkBox 40 10 90 55]%Q, [9 # 10; 8 # 10]%Q, [1; 1])
  /\ length [mkBox 10 10 60 55; mkBox 40 10 90 55]%Q
     = length [9 # 10; 8 # 10]%Q
  /\ length [1; 1] = length [9 # 10; 8 # 10]%Q
  /\ (length [mkBox 10 10 60 55; mkBox 40 10 90 55]%Q
      <= rcnn_detections_per_img (extractor rcnn_stage))%nat.
Proof.
  split; [vm_compute; reflexivity|].
  apply (postprocess_image_aligned_and_capped (H := stub_detector)
           (extractor rcnn_stage) 2
           [[mkBox 10 10 60 55; mkBox 10 10 60 55];
            [mkBox 40 10 90 55; mkBox 40 10 90 55];
            [mkBox 0 0 30 30; mkBox 0 0 30 30]]%Q
           [[1 # 10; 9 # 10]; [2 # 10; 8 # 10]; [9 # 10; 1 # 10]]%Q
           (100, 120)).
  vm_compute. reflexivity.
Defined.

Lemma postprocess_image_scores_above_threshold_witness :
  postprocess_image (H := stub_detector) (extractor rcnn_stage) 2
    [[mkBox 10 10 60 55; mkBox 10 10 60 55];
     [mkBox 40 10 90 55; mkBox 40 10 90 55];
     [mkBox 0 0 30 30; mkBox 0 0 30 30]]%Q
    [[1 # 10; 9 # 10]; [2 # 10; 8 # 10]; [9 # 10; 1 # 10]]%Q (100, 120)
  = Ok ([mkBox 10 10 60 55; mkBox 40 10 90 55]%Q, [9 # 10; 8 # 10]%Q, [1; 1])
  /\ forall s, s ∈ [9 # 10; 8 # 10]%Q ->
               (rcnn_score_thresh (extractor rcnn_stage) < s)%Q.
Proof.
  split; [vm_compute; reflexivity|].
  apply (postprocess_image_scores_above_threshold (H := stub_detector)
           (extractor rcnn_stage) 2
           [[mkBox 10 10 60 55; mkBox 10 10 60 55];
            [mkBox 40 10 90 55; mkBox 40 10 90 55];
            [mkBox 0 0 30 30; mkBox 0 0 30 30]]%Q
           [[1 # 10; 9 # 10]; [2 # 10; 8 # 10]; [9 # 10; 1 # 10]]%Q
           (100, 120) [mkBox 10 10 60 55; mkBox 40 10 90 55]%Q _ [1; 1]).
  vm_compute. reflexivity.
Defined.

Lemma postprocess_image_labels_foreground_witness :
  postprocess_image (H := stub_detector) (extractor rcnn_stage) 2
    [[mkBox 10 10 60 55; mkBox 10 10 60 55];
     [mkBox 40 10 90 55; mkBox 40 10 90 55];
     [mkBox 0 0 30 30; mkBox 0 0 30 30]]%Q
    [[1 # 10; 9 # 10]; [2 # 10; 8 # 10]; [9 # 10; 1 # 10]]%Q (100, 120)
  = Ok ([mkBox 10 10 60 55; mkBox 40 10 90 55]%Q, [9 # 10; 8 # 10]%Q, [1; 1])
  /\ forall l, l ∈ [1; 1] -> 1 <= l < Z.of_nat 2.
Proof.
  split; [vm_compute; reflexivity|].
  apply (postprocess_image_labels_foreground (H := stub_detector)
           (extractor rcnn_stage) 2
           [[mkBox 10 10 60 55; mkBox 10 10 60 55];
            [mkBox 40 10 90 55; mkBox 40 10 90 55];
            [mkBox 0 0 30 30; mkBox 0 0 30 30]]%Q
           [[1 # 10; 9 # 10]; [2 # 10; 8 # 10]; [9 # 10; 1 # 10]]%Q
           (100, 120) [mkBox 10 10 60 55; mkBox 40 10 90 55]%Q
           [9 # 10; 8 # 10]%Q [1; 1]).
  vm_compute. reflexivity.
Defined.

Lemma postprocess_detections_one_entry_per_image_witness :
  postprocess_detections (H := stub_detector) (extractor rcnn_stage)
    [[0; 1]; [0; 1]; [0; 1]]%Q tt
    [[mkBox 10 10 60 55; mkBox 0 0 30 30]; [mkBox 40 10 90 55]]%Q
    [(100, 120); (100, 120)]
  = Ok [([mkBox 10 10 60 55; mkBox 0 0 30 30]%Q, [9 # 10; 9 # 10]%Q, [1; 1]);
        ([mkBox 40 10 90 55]%Q, [9 # 10]%Q, [1])]
  /\ length [([mkBox 10 10 60 55; mkBox 0 0 30 30]%Q, [9 # 10; 9 # 10]%Q,
              [1; 1]);
             ([mkBox 40 10 90 55]%Q, [9 # 10]%Q, [1])]
     = Nat.min (length [[mkBox 10 10 60 55; mkBox 0 0 30 30];
                        [mkBox 40 10 90 55]]%Q)
               (length [(100, 120); (100, 120)]).
Proof.
  split; [vm_compute; reflexivity|].
  apply (postprocess_detections_one_entry_per_image (H := stub_detector)
           (extractor rcnn_stage) [[0; 1]; [0; 1]; [0; 1]]%Q tt
           [[mkBox 10 10 60 55; mkBox 0 0 30 30]; [mkBox 40 10 90 55]]%Q
           [(100, 120); (100, 120)]).
  vm_compute. reflexivity.
Defined.

Lemma for_each_never {A B} (f : A -> result B) (xs : list A) (ys : list B) :
  (forall x y, f x <> Ok y) -> for_each f xs = Ok ys -> ys = [].
Proof.
  intros Hf. destruct xs as [|x xs]; cbn; intros Hys.
  - injection Hys as <-. reflexivity.
  - invert_rbind Hys. exfalso. eapply Hf, Hv.
Qed.

Lemma for_each_to_input (cv2_images : list ndarray) :
  Forall (fun image => length (shape image) = 3%nat) cv2_images ->
  exists input_list, for_each to_input cv2_images = Ok input_list.
Proof.
  induction 1 as [|image images Himage _ [input_list IH]]; cbn.
  - eauto.
  - unfold to_input at 1.
    destruct (shape image) as [|h [|w [|c [|]]]]; try discriminate.
    cbn. rewrite IH. cbn. eauto.
Qed.

Section Forward.
Context `{Detector}.
Variable self : RegionExtractor.

(** X12.  In evaluation mode [forward] rejects an empty list of images
    with [IndexError], and a first image that is not [H x W x 3] with
    [AssertionError], before any call of the network. *)
Theorem forward_rejects_input_before_network
    (first : ndarray) (rest : list ndarray) :
  training self = false ->
  forward self [] = ([], Raise IndexError)
  /\ (~ (length (shape first) = 3%nat /\ shape first !! 2%nat = Some 3) ->
      forward self (first :: rest) = ([], Raise AssertionError)).
Proof.
  intros Heval. unfold forward. rewrite Heval. split; [reflexivity|].
  intros Hbad. cbn [item lookup list_lookup lift bind].
  destruct (decide (length (shape first) = 3%nat)) as [Hdim|Hdim];
    [|reflexivity].
  destruct (decide (shape first !! 2%nat = Some 3)) as [Hch|Hch];
    [|reflexivity].
  exfalso. apply Hbad. split; assumption.
Qed.

Lemma patch_step_odd (boxes : list (Box Q)) (original_image_size : size) :
  patch_side_length self mod 2 <> 0 ->
  patch_step self boxes original_image_size = Raise AssertionError.
Proof.
  intros Hodd. unfold patch_step.
  rewrite convert_to_patch_boxes_odd by exact Hodd. reflexivity.
Qed.

Lemma rpn_frame_odd (frame : list (Box Q) * size * size) (out : list (Box Q)) :
  patch_mode self = true -> patch_side_length self mod 2 <> 0 ->
  rpn_frame self frame <> Ok out.
Proof.
  intros Hpatch Hodd Hout. unfold rpn_frame in Hout.
  destruct frame as [[boxes original_image_size] new_image_size].
  invert_rbind Hout. invert_rbind Hout. invert_rbind Hout.
  rewrite Hpatch, patch_step_odd in Hout by exact Hodd. discriminate.
Qed.

Lemma rcnn_frame_odd (frame : list (Box Q) * list Q * size * size)
    (out : list (Box Q) * list Q) :
  patch_mode self = true -> patch_side_length self mod 2 <> 0 ->
  rcnn_frame self frame <> Ok out.
Proof.
  intros Hpatch Hodd Hout. unfold rcnn_frame in Hout.
  destruct frame as [[[boxes scores] original_image_size] new_image_size].
  invert_rbind Hout.
  rewrite Hpatch, patch_step_odd in Hout by exact Hodd. discriminate.
Qed.

Lemma bind_snd_Ok {A B} (m : M A) (k : A -> M B) (b : B) :
  snd (bind m k) = Ok b -> exists a, snd m = Ok a /\ snd (k a) = Ok b.
Proof.
  destruct m as [t [a|e]]; cbn; [|discriminate].
  destruct (k a) as [t' r] eqn:Hk. cbn. intros ->.
  exists a. rewrite Hk. split; reflexivity.
Qed.

Lemma forward_outputs_odd (input_list : list ndarray)
    (output_boxes : list (list (Box Q))) (output_scores : list (list Q)) :
  patch_mode self = true -> patch_side_length self mod 2 <> 0 ->
  snd (forward_outputs self input_list) = Ok (output_boxes, output_scores) ->
  output_boxes = [].
Proof.
  intros Hpatch Hodd. unfold forward_outputs. intros Hout.
  apply bind_snd_Ok in Hout as ([images new_image_sizes] & _ & Hout).
  apply bind_snd_Ok in Hout as (features & _ & Hout).
  apply bind_snd_Ok in Hout as (proposals & _ & Hout).
  destruct (stage self).
  - apply bind_snd_Ok in Hout as (boxes & Hboxes & Hout).
    cbn in Hboxes, Hout. injection Hout as <- <-.
    eapply for_each_never, Hboxes.
    intros frame out. apply rpn_frame_odd; assumption.
  - apply bind_snd_Ok in Hout as (pooled & _ & Hout).
    apply bind_snd_Ok in Hout as (pooled' & _ & Hout).
    apply bind_snd_Ok in Hout as ([class_logits box_regression] & _ & Hout).
    apply bind_snd_Ok in Hout as (detections & _ & Hout).
    apply bind_snd_Ok in Hout as (outputs & Houtputs & Hout).
    cbn in Houtputs, Hout. injection Hout as <- <-.
    apply for_each_never in Houtputs as ->; [reflexivity|].
    intros frame out. apply rcnn_frame_odd; assumption.
Qed.

(** X13.  With [patch_mode] and an odd [patch_side_length] (and without
    [use_original]) [forward] returns nothing, in either stage and for
    every input and network: the construction accepts the odd size, and
    every call ends in an exception. *)
Theorem forward_odd_patch_size_never_returns
    (cv2_images : list ndarray) (out : forward_output) :
  use_original self = false -> patch_mode self = true ->
  patch_side_length self mod 2 <> 0 ->
  snd (forward self cv2_images) <> Ok out.
Proof.
  intros Horig Hpatch Hodd Hout.
  destruct (ExtractorProps.forward_returns_one_array
              self cv2_images out Horig Hout)
    as (input_list & output_boxes & output_scores & boxes
        & _ & Houtputs & Hboxes & _).
  apply (forward_outputs_odd _ _ _ Hpatch Hodd) in Houtputs. subst.
  discriminate.
Qed.

(** X14.  Without [use_original], on an input that passes the checks,
    [forward] calls the transform, the backbone and the region proposal
    network, once each and in this order; in the [rpn] stage it calls
    nothing else, in the [rcnn] stage the ROI pooling, the box head and the
    box predictor follow.  The calls are the same when a later step
    raises. *)
Theorem forward_network_calls (cv2_images : list ndarray) :
  training self = false -> use_original self = false ->
  accepted_input cv2_images ->
  fst (forward self cv2_images)
  = match stage self with
    | rpn_stage => [CallTransform; CallBackbone; CallRpn]
    | rcnn_stage => [CallTransform; CallBackbone; CallRpn;
                     CallRoiPool; CallBoxHead; CallBoxPredictor]
    end.
Proof.
  intros Heval Horig [(first & Hfirst & Hdim & Hch) Hall].
  destruct (for_each_to_input cv2_images Hall) as [input_list Hinputs].
  unfold forward, item. rewrite Heval, Horig, Hfirst.
  cbn [lift bind].
  destruct (decide (length (shape first) = 3%nat)); [|contradiction].
  destruct (decide (shape first !! 2%nat = Some 3)); [|contradiction].
  rewrite Hinputs. cbn [lift bind app].
  unfold forward_outputs.
  destruct (transform input_list) as [images new_image_sizes].
  destruct (stage self); cbn [call bind lift app ret].
  - destruct (for_each (rpn_frame self) _) as [output_boxes|e1];
      cbn; [|reflexivity].
    destruct (output_boxes !! 0%nat); reflexivity.
  - destruct (box_predictor _) as [class_logits box_regression].
    cbn [call bind lift app ret].
    destruct (postprocess_detections _ _ _ _ _) as [detections|e1];
      cbn; [|reflexivity].
    destruct (for_each (rcnn_frame self) _) as [outputs|e2];
      cbn; [|reflexivity].
    destruct ((fst <$> outputs) !! 0%nat); reflexivity.
Qed.

(** X15.  With [use_original], on an input that passes the checks,
    [forward] calls the base model once, nothing else, and returns the
    boxes the base model gives for every frame. *)
Theorem forward_use_original_returns_every_frame
    (cv2_images : list ndarray) :
  training self = false -> use_original self = true ->
  accepted_input cv2_images ->
  exists input_list,
    for_each to_input cv2_images = Ok input_list
    /\ length input_list = length cv2_images
    /\ forward self cv2_images
       = ([CallBaseModel], Ok (PerFrame (base_model input_list))).
Proof.
  intros Heval Horig [(first & Hfirst & Hdim & Hch) Hall].
  destruct (for_each_to_input cv2_images Hall) as [input_list Hinputs].
  exists input_list. split; [exact Hinputs|].
  split; [eapply for_each_length, Hinputs|].
  unfold forward, item. rewrite Heval, Horig, Hfirst.
  cbn [lift bind].
  destruct (decide (length (shape first) = 3%nat)); [|contradiction].
  destruct (decide (shape first !! 2%nat = Some 3)); [|contradiction].
  rewrite Hinputs. reflexivity.
Qed.

End Forward.

Lemma accepted_two_black_frames : accepted_input [black_frame; black_frame].
Proof.
  split.
  - exists black_frame. repeat split; reflexivity.
  - repeat constructor.
Defined.

Lemma forward_rejects_input_before_network_witness :
  training (extractor rpn_stage) = false
  /\ forward (H := stub_detector) (extractor rpn_stage) []
     = ([], Raise IndexError)
  /\ (~ (length (shape flat_frame) = 3%nat
         /\ shape flat_frame !! 2%nat = Some 3) ->
      forward (H := stub_detector) (extractor rpn_stage)
              [flat_frame; black_frame]
      = ([], Raise AssertionError)).
Proof.
  split; [reflexivity|].
  apply (forward_rejects_input_before_network (H := stub_detector)
           (extractor rpn_stage) flat_frame [black_frame]).
  reflexivity.
Defined.

Lemma forward_odd_patch_size_never_returns_witness :
  use_original (odd_patch_extractor rcnn_stage) = false
  /\ patch_mode (odd_patch_extractor rcnn_stage) = true
  /\ patch_side_length (odd_patch_extractor rcnn_stage) mod 2 <> 0
  /\ snd (forward (H := stub_detector) (odd_patch_extractor rcnn_stage)
                  [black_frame; black_frame])
     <> Ok (OneArray [mkBox 19 17 51 49]%Q).
Proof.
  split; [reflexivity|]. split; [reflexivity|]. split; [discriminate|].
  apply (forward_odd_patch_size_never_returns (H := stub_detector)
           (odd_patch_extractor rcnn_stage) [black_frame; black_frame]);
    [reflexivity | reflexivity | discriminate].
Defined.

Lemma forward_network_calls_witness :
  training (extractor rpn_stage) = false
  /\ use_original (extractor rpn_stage) = false
  /\ accepted_input [black_frame; black_frame]
  /\ fst (forward (H := stub_detector) (extractor rpn_stage)
                  [black_frame; black_frame])
     = [CallTransform; CallBackbone; CallRpn].
Proof.
  split; [reflexivity|]. split; [reflexivity|].
  split; [exact accepted_two_black_frames|].
  apply (forward_network_calls (H := stub_detector) (extractor rpn_stage)
           [black_frame; black_frame] eq_refl eq_refl
           accepted_two_black_frames).
Defined.

Lemma forward_use_original_returns_every_frame_witness :
  training original_extractor = false
  /\ use_original original_extractor = true
  /\ accepted_input [black_frame; black_frame]
  /\ exists input_list,
       for_each to_input [black_frame; black_frame] = Ok input_list
       /\ length input_list = 2%nat
       /\ forward (H := stub_detector) original_extractor
                  [black_frame; black_frame]
          = ([CallBaseModel],
             Ok (PerFrame (base_model (Detector := stub_detector) input_list))).
Proof.
  split; [reflexivity|]. split; [reflexivity|].
  split; [exact accepted_two_black_frames|].
  apply (forward_use_original_returns_every_frame (H := stub_detector)
           original_extractor [black_frame; black_frame] eq_refl eq_refl
           accepted_two_black_frames).
Defined.

End ExtractorExtra.

(** ** Further properties of the tiler *)

Module TilerExtra.
Import Tiler.










(** X18.  [tiled_boxes] raises [ZeroDivisionError] exactly when [isize] is
    0: the division by [tile_count - 1] never raises. *)
Theorem tiled_boxes_zero_division (frame_size_rc : Z * Z) (isize : Z) :
  tiled_boxes frame_size_rc isize = Raise ZeroDivisionError <-> isize = 0.
Proof.
  unfold tiled_boxes, tile_count. split.
  - destruct (Z.eqb_spec isize 0) as [Hz|Hz]; [intros _; exact Hz|].
    destruct (ceil_to_int _); cbn; [|discriminate].
    destruct (ceil_to_int _); cbn; discriminate.
  - intros ->. reflexivity.
Qed.






End TilerExtra.

(** ** Properties of the patch extractor *)

Module PatchesProps.
Import Geometry Extractor Patches Windows GeometryProps GeometryExtra.




Lemma each_fmap {A B} (f : A -> outcome B) (g : A -> B) (xs : list A) :
  Forall (fun x => f x = Done (g x)) xs -> each f xs = Done (g <$> xs).
Proof.
  induction 1 as [|x xs Hx _ IH]; cbn; [reflexivity|].
  rewrite Hx, IH. reflexivity.
Qed.

Lemma length_seqZ_nat (n : Z) : length (seqZ 0 n) = Z.to_nat n.
Proof. apply length_seqZ. Qed.

Section WithPixelOps.
Context {ops : PixelOps}.





Lemma slice_range_inside (len start stop : Z) :
  0 <= start -> start <= stop -> stop <= len ->
  slice_range len start stop = (start, stop - start).
Proof.
  intros H0 H1 H2. unfold slice_range, slice_bound.
  destruct (Z.ltb_spec start 0), (Z.ltb_spec stop 0); try lia.
  f_equal; lia.
Qed.

Lemma crop_inside (frame : ndarray) (H W isize k : Z) (b : Box Z) :
  nth 0 (shape frame) 0 = H -> nth 1 (shape frame) 0 = W ->
  0 <= isize -> in_frame H W isize b ->
  crop frame b k
  = mk_plane isize isize (fun i j => at3 frame (by1 b + i) (bx1 b + j) k).
Proof.
  intros HH HW Hsize (Hx1 & Hx & Hx2 & Hy1 & Hy & Hy2).
  unfold crop. rewrite HH, HW.
  rewrite !slice_range_inside by lia.
  replace (by2 b - by1 b) with isize by lia.
  replace (bx2 b - bx1 b) with isize by lia.
  reflexivity.
Qed.

Lemma seqZ_elem (n i : Z) (k : nat) :
  seqZ 0 n !! k = Some i -> 0 <= i < n.
Proof. intros Hi. apply lookup_seqZ in Hi. lia. Qed.

Lemma assign_square (dtype : np_dtype) (isize : Z) (f : Z -> Z -> Q) :
  assign dtype isize (mk_plane isize isize f)
  = Done ((fun i => (fun j => astype dtype (f i j)) <$> seqZ 0 isize)
            <$> seqZ 0 isize).
Proof.
  unfold assign. cbn [rows cols at2]. rewrite Z.eqb_refl. cbn [orb andb].
  f_equal. apply list_fmap_ext. intros ki i Hi. apply seqZ_elem in Hi.
  apply list_fmap_ext. intros kj j Hj. apply seqZ_elem in Hj.
  destruct (Z.eqb_spec isize 1) as [H1|H1]; [|reflexivity].
  replace i with 0 by lia. replace j with 0 by lia. reflexivity.
Qed.

Lemma assign_crop_inside (frame : ndarray) (dtype : np_dtype)
    (H W isize k : Z) (b : Box Z) :
  nth 0 (shape frame) 0 = H -> nth 1 (shape frame) 0 = W ->
  0 <= isize -> in_frame H W isize b ->
  assign dtype isize (crop frame b k)
  = Done (window dtype frame (bx1 b) (by1 b) isize k).
Proof.
  intros HH HW Hsize Hb.
  rewrite (crop_inside frame H W isize k b HH HW Hsize Hb).
  apply assign_square.
Qed.

Lemma round_boxes_integers (boxes : list (Box Z)) :
  round_boxes (box_map inject_Z <$> boxes) = boxes.
Proof.
  unfold round_boxes. rewrite <- list_fmap_compose.
  rewrite <- (list_fmap_id boxes) at 2.
  apply list_fmap_ext. intros _ b _. cbn.
  unfold box_map. cbn [bx1 by1 bx2 by2].
  rewrite !round_half_even_inject_Z. apply box_eta.
Qed.

(** X21.  From a two-dimensional frame, with [channels = 0], boxes of
    integers of side [isize] that lie in the frame give exact copies: patch
    [n] is the window of the frame at the origin of box [n], pixel
    [(i, j)] of the patch being pixel [(y1 + i, x1 + j)] of the frame,
    stored with the output type. *)
Theorem extract_patches_copies_grey_windows
    (frame : ndarray) (boxes : list (Box Z)) (H W isize : Z)
    (out_type : out_dtype) (dtype : np_dtype) :
  shape frame = [H; W] -> np_type out_type = Some dtype ->
  0 <= isize -> Forall (in_frame H W isize) boxes ->
  extract_patches_from_frame frame (box_map inject_Z <$> boxes) isize 0 out_type
  = Done (Patches3
            ((fun b => window dtype frame (bx1 b) (by1 b) isize 0) <$> boxes)).
Proof.
  intros Hshape Htype Hsize Hboxes.
  unfold extract_patches_from_frame.
  rewrite round_boxes_integers, Htype, Hshape. cbn [length].
  rewrite bool_decide_eq_true_2 by (left; reflexivity).
  rewrite bool_decide_eq_true_2 by discriminate.
  cbn [Z.leb Z.compare andb Z.eqb].
  destruct (Z.ltb_spec isize 0); [lia|].
  rewrite (each_fmap _ (fun b => window dtype frame (bx1 b) (by1 b) isize 0)).
  - reflexivity.
  - eapply Forall_impl; [exact Hboxes|]. intros b Hb. cbn beta.
    unfold gray_patch. rewrite Hshape.
    destruct (decide (length [H; W] = 3%nat)); [discriminate|].
    apply (assign_crop_inside frame dtype H W isize 0 b);
      try assumption; rewrite Hshape; reflexivity.
Qed.

Lemma nth_fmap_seqZ {A} (g : Z -> A) (n i : Z) (d : A) :
  0 <= i < n -> nth (Z.to_nat i) (g <$> seqZ 0 n) d = g i.
Proof.
  intros Hi. apply nth_lookup_Some.
  rewrite list_lookup_fmap, lookup_seqZ_lt by lia.
  cbn. f_equal. f_equal. lia.
Qed.

Lemma stack_windows (dtype : np_dtype) (frame : ndarray) (x y isize : Z) :
  stack_channels isize
    [window dtype frame x y isize 0; window dtype frame x y isize 1;
     window dtype frame x y isize 2]
  = color_window dtype frame x y isize.
Proof.
  unfold stack_channels, color_window.
  apply list_fmap_ext. intros ki i Hi. apply seqZ_elem in Hi.
  apply list_fmap_ext. intros kj j Hj. apply seqZ_elem in Hj.
  cbn [fmap list_fmap]. unfold window.
  rewrite !(nth_fmap_seqZ _ isize i) by exact Hi.
  rewrite !(nth_fmap_seqZ _ isize j) by exact Hj.
  reflexivity.
Qed.

(** X22.  From a frame with three channels, with [channels = 3] (the
    default), boxes of integers of side [isize] that lie in the frame give
    exact copies with all three channels, in the order of the frame. *)
Theorem extract_patches_copies_color_windows
    (frame : ndarray) (boxes : list (Box Z)) (H W isize : Z)
    (out_type : out_dtype) (dtype : np_dtype) :
  shape frame = [H; W; 3] -> np_type out_type = Some dtype ->
  0 <= isize -> Forall (in_frame H W isize) boxes ->
  extract_patches_from_frame frame (box_map inject_Z <$> boxes) isize 3 out_type
  = Done (Patches4
            ((fun b => color_window dtype frame (bx1 b) (by1 b) isize)
               <$> boxes)).
Proof.
  intros Hshape Htype Hsize Hboxes.
  unfold extract_patches_from_frame.
  rewrite round_boxes_integers, Htype, Hshape. cbn [length].
  rewrite bool_decide_eq_true_2 by (right; reflexivity).
  rewrite bool_decide_eq_true_2 by (intros _; right; reflexivity).
  cbn [Z.leb Z.compare andb Z.eqb].
  destruct (Z.ltb_spec isize 0); [lia|].
  rewrite (each_fmap _ (fun b => color_window dtype frame (bx1 b) (by1 b) isize)).
  - reflexivity.
  - eapply Forall_impl; [exact Hboxes|]. intros b Hb. cbn beta.
    assert (Hc : forall c,
               channel_patch frame dtype isize 3 b c
               = Done (window dtype frame (bx1 b) (by1 b) isize c)).
    { intros c. unfold channel_patch. rewrite Hshape.
      destruct (decide (length [H; W; 3] = 3%nat)); [|contradiction].
      destruct (decide ([H; W; 3] !! 2%nat = Some 1)); [discriminate|].
      cbn [Z.eqb].
      apply (assign_crop_inside frame dtype H W isize c b);
        try assumption; rewrite Hshape; reflexivity. }
    change (seqZ 0 3) with [0; 1; 2]. cbn [each].
    rewrite !Hc. cbn [obind]. rewrite stack_windows. reflexivity.
Qed.


Lemma assign_no_columns (dtype : np_dtype) (isize h : Z) (f : Z -> Z -> Q) :
  0 < isize -> assign dtype isize (mk_plane h 0 f) = Fail PatchValueError.
Proof.
  intros Hsize. unfold assign. cbn [rows cols].
  destruct (Z.eqb_spec 0 isize); [lia|].
  cbn [Z.eqb orb]. rewrite andb_false_r. reflexivity.
Qed.

(** X24.  In a frame with three channels whose width is exactly a positive
    even [patch_side_length], the boxes of the normalizer cannot be
    extracted: they start at column -1, the slice from -1 to the last
    column is empty, and the extractor raises [ValueError] on the first
    box. *)
Theorem patch_boxes_not_extractable_in_tight_frame
    (frame : ndarray) (box : Box Q) (boxes : list (Box Q)) (H t : Z)
    (out_type : out_dtype) (dtype : np_dtype) :
  shape frame = [H; t; 3] -> np_type out_type = Some dtype ->
  t mod 2 = 0 -> 0 < t ->
  exists out,
    snd (convert_to_patch_boxes (box :: boxes) (H, t) t) = Ok out
    /\ extract_patches_from_frame frame out t 3 out_type
       = Fail PatchValueError.
Proof.
  intros Hshape Htype Ht H0.
  eexists. split; [apply convert_to_patch_boxes_ok, Ht|].
  change ((fun b => box_map inject_Z
                      (place_row (H, t) t
                         (make_sides_even (box_map round_half_even b))))
            <$> box :: boxes)
    with (box_map inject_Z
            ∘ (fun b => place_row (H, t) t
                          (make_sides_even (box_map round_half_even b)))
            <$> box :: boxes).
  rewrite (list_fmap_compose _ (box_map inject_Z)).
  unfold extract_patches_from_frame.
  rewrite round_boxes_integers, Htype, Hshape. cbn [length].
  rewrite bool_decide_eq_true_2 by (right; reflexivity).
  rewrite bool_decide_eq_true_2 by (intros _; right; reflexivity).
  cbn [Z.leb Z.compare andb Z.eqb].
  destruct (Z.ltb_spec t 0); [lia|].
  cbn [fmap list_fmap each].
  set (b := place_row (H, t) t (make_sides_even (box_map round_half_even box))).
  pose proof (make_sides_even_spec (box_map round_half_even box)) as [Hw _].
  pose proof (place_row_narrow H t t _ Ht (Z.le_refl t) Hw) as [Hx2 Hx1].
  fold b in Hx1, Hx2.
  change (seqZ 0 3) with [0; 1; 2]. cbn [each].
  assert (Hfail : channel_patch frame dtype t 3 b 0 = Fail PatchValueError).
  { unfold channel_patch. rewrite Hshape.
    destruct (decide (length [H; t; 3] = 3%nat)); [|contradiction].
    destruct (decide ([H; t; 3] !! 2%nat = Some 1)); [discriminate|].
    cbn [Z.eqb]. unfold crop. rewrite Hshape. cbn [nth].
    destruct (slice_range H (by1 b) (by2 b)) as [y0 h].
    assert (Hcols : slice_range t (bx1 b) (bx2 b) = (t - 1, 0)).
    { unfold slice_range, slice_bound. rewrite Hx1, Hx2.
      destruct (Z.ltb_spec (t - 1 - t) 0), (Z.ltb_spec (t - 1) 0); try lia.
      f_equal; lia. }
    rewrite Hcols. apply assign_no_columns, H0. }
  rewrite Hfail. reflexivity.
Qed.

(** X25.  A box of a batch for a two-dimensional frame that starts inside
    the frame and reaches beyond its right edge is neither cut nor padded:
    unless exactly one of its columns is inside, the extractor raises
    [ValueError] (when the box is the first of the batch, whatever
    follows). *)
Theorem extract_patches_rejects_overhanging_box
    (frame : ndarray) (b : Box Z) (boxes : list (Box Z)) (H W isize : Z)
    (out_type : out_dtype) (dtype : np_dtype) :
  shape frame = [H; W] -> np_type out_type = Some dtype ->
  0 <= bx1 b -> bx1 b < W -> W < bx2 b -> bx2 b - bx1 b = isize ->
  W - bx1 b <> 1 ->
  extract_patches_from_frame frame (box_map inject_Z <$> b :: boxes)
                             isize 0 out_type
  = Fail PatchValueError.
Proof.
  intros Hshape Htype Hx1 HxW Hx2 Hsize Hone.
  unfold extract_patches_from_frame.
  rewrite round_boxes_integers, Htype, Hshape. cbn [length].
  rewrite bool_decide_eq_true_2 by (left; reflexivity).
  rewrite bool_decide_eq_true_2 by discriminate.
  cbn [Z.leb Z.compare andb Z.eqb].
  destruct (Z.ltb_spec isize 0); [lia|].
  cbn [each].
  assert (Hfail : gray_patch frame dtype isize b = Fail PatchValueError).
  { unfold gray_patch. rewrite Hshape.
    destruct (decide (length [H; W] = 3%nat)); [discriminate|].
    unfold crop. rewrite Hshape. cbn [nth].
    destruct (slice_range H (by1 b) (by2 b)) as [y0 h].
    assert (Hcols : slice_range W (bx1 b) (bx2 b) = (bx1 b, W - bx1 b)).
    { unfold slice_range, slice_bound.
      destruct (Z.ltb_spec (bx1 b) 0), (Z.ltb_spec (bx2 b) 0); try lia.
      f_equal; lia. }
    rewrite Hcols. unfold assign. cbn [rows cols].
    destruct (Z.eqb_spec (W - bx1 b) isize); [lia|].
    destruct (Z.eqb_spec (W - bx1 b) 1); [lia|].
    cbn [orb]. rewrite andb_false_r. reflexivity. }
  rewrite Hfail. reflexivity.
Qed.

(** X26.  A box that starts in the last column of a two-dimensional frame
    and reaches beyond the right edge is not rejected: its rows being
    inside the frame, the one column inside is repeated over the whole
    width of the patch. *)
Theorem extract_patches_repeats_last_column
    (frame : ndarray) (H W isize y : Z)
    (out_type : out_dtype) (dtype : np_dtype) :
  shape frame = [H; W] -> np_type out_type = Some dtype ->
  0 <= isize -> 1 <= W -> 0 <= y -> y + isize <= H ->
  extract_patches_from_frame frame
    [box_map inject_Z (mkBox (W - 1) y (W - 1 + isize) (y + isize))]
    isize 0 out_type
  = Done (Patches3
            [(fun i => (fun _ => astype dtype (at3 frame (y + i) (W - 1) 0))
                         <$> seqZ 0 isize)
               <$> seqZ 0 isize]).
Proof.
  intros Hshape Htype Hsize HW Hy Hy2.
  change [box_map inject_Z (mkBox (W - 1) y (W - 1 + isize) (y + isize))]
    with (box_map inject_Z
            <$> [mkBox (W - 1) y (W - 1 + isize) (y + isize)]).
  unfold extract_patches_from_frame.
  rewrite round_boxes_integers, Htype, Hshape. cbn [length].
  rewrite bool_decide_eq_true_2 by (left; reflexivity).
  rewrite bool_decide_eq_true_2 by discriminate.
  cbn [Z.leb Z.compare andb Z.eqb].
  destruct (Z.ltb_spec isize 0); [lia|].
  cbn [each]. unfold gray_patch. rewrite Hshape.
  destruct (decide (length [H; W] = 3%nat)); [discriminate|].
  unfold crop. rewrite Hshape. cbn [nth bx1 by1 bx2 by2].
  rewrite (slice_range_inside H y (y + isize)) by lia.
  assert (Hcols : slice_range W (W - 1) (W - 1 + isize)
                  = (W - 1, if isize =? 0 then 0 else 1)).
  { unfold slice_range, slice_bound.
    destruct (Z.ltb_spec (W - 1) 0), (Z.ltb_spec (W - 1 + isize) 0),
             (Z.eqb_spec isize 0); try lia; f_equal; lia. }
  rewrite Hcols. replace (y + isize - y) with isize by lia.
  unfold assign. cbn [rows cols at2 obind].
  rewrite Z.eqb_refl. cbn [orb andb].
  destruct (Z.eqb_spec isize 0) as [->|Hnz].
  - reflexivity.
  - cbn [Z.eqb orb andb Pos.eqb]. rewrite orb_true_r. cbn [obind].
    do 3 f_equal.
    apply list_fmap_ext. intros ki i Hi. apply seqZ_elem in Hi.
    apply list_fmap_ext. intros kj j Hj.
    replace (W - 1 + 0) with (W - 1) by lia.
    destruct (Z.eqb_spec isize 1) as [H1|H1]; [|reflexivity].
    replace i with 0 by lia. reflexivity.
Qed.

End WithPixelOps.


Lemma extract_patches_copies_grey_windows_witness :
  shape grey_ramp_frame = [6; 8] /\ np_type np_float64 = Some float64
  /\ 0 <= 2
  /\ Forall (in_frame 6 8 2) [mkBox 1 2 3 4; mkBox 6 4 8 6]
  /\ extract_patches_from_frame (H := plain_ops) grey_ramp_frame
       (box_map inject_Z <$> [mkBox 1 2 3 4; mkBox 6 4 8 6]) 2 0 np_float64
     = Done (Patches3
               ((fun b => window (H := plain_ops) float64 grey_ramp_frame
                            (bx1 b) (by1 b) 2 0)
                  <$> [mkBox 1 2 3 4; mkBox 6 4 8 6])).
Proof.
  assert (Hin : Forall (in_frame 6 8 2) [mkBox 1 2 3 4; mkBox 6 4 8 6])
    by (repeat constructor; cbn; lia).
  split; [reflexivity|]. split; [reflexivity|]. split; [lia|].
  split; [exact Hin|].
  apply (extract_patches_copies_grey_windows (ops := plain_ops)
           grey_ramp_frame [mkBox 1 2 3 4; mkBox 6 4 8 6] 6 8 2
           np_float64 float64 eq_refl eq_refl ltac:(lia) Hin).
Defined.

Lemma extract_patches_copies_color_windows_witness :
  shape ramp_frame = [6; 8; 3] /\ np_type np_float64 = Some float64
  /\ 0 <= 2
  /\ Forall (in_frame 6 8 2) [mkBox 1 2 3 4; mkBox 6 4 8 6]
  /\ extract_patches_from_frame (H := plain_ops) ramp_frame
       (box_map inject_Z <$> [mkBox 1 2 3 4; mkBox 6 4 8 6]) 2 3 np_float64
     = Done (Patches4
               ((fun b => color_window (H := plain_ops) float64 ramp_frame
                            (bx1 b) (by1 b) 2)
                  <$> [mkBox 1 2 3 4; mkBox 6 4 8 6])).
Proof.
  assert (Hin : Forall (in_frame 6 8 2) [mkBox 1 2 3 4; mkBox 6 4 8 6])
    by (repeat constructor; cbn; lia).
  split; [reflexivity|]. split; [reflexivity|]. split; [lia|].
  split; [exact Hin|].
  apply (extract_patches_copies_color_windows (ops := plain_ops)
           ramp_frame [mkBox 1 2 3 4; mkBox 6 4 8 6] 6 8 2
           np_float64 float64 eq_refl eq_refl ltac:(lia) Hin).
Defined.


Lemma patch_boxes_not_extractable_in_tight_frame_witness :
  shape ramp_frame = [6; 8; 3] /\ np_type np_float64 = Some float64
  /\ 8 mod 2 = 0 /\ 0 < 8
  /\ exists out,
       snd (convert_to_patch_boxes [mkBox 0 0 8 6; mkBox 1 1 3 3]%Q (6, 8) 8)
       = Ok out
       /\ extract_patches_from_frame (H := plain_ops) ramp_frame out 8 3
                                     np_float64
          = Fail PatchValueError.
Proof.
  split; [reflexivity|]. split; [reflexivity|]. split; [reflexivity|].
  split; [lia|].
  apply (patch_boxes_not_extractable_in_tight_frame (ops := plain_ops)
           ramp_frame (mkBox 0 0 8 6)%Q [mkBox 1 1 3 3]%Q 6 8
           np_float64 float64);
    [reflexivity | reflexivity | reflexivity | lia].
Defined.

Lemma extract_patches_rejects_overhanging_box_witness :
  shape grey_ramp_frame = [6; 8] /\ np_type np_float64 = Some float64
  /\ 0 <= 5 /\ 5 < 8 /\ 8 < 9 /\ 9 - 5 = 4 /\ 8 - 5 <> 1
  /\ extract_patches_from_frame (H := plain_ops) grey_ramp_frame
       (box_map inject_Z <$> [mkBox 5 0 9 4; mkBox 0 0 4 4]) 4 0 np_float64
     = Fail PatchValueError.
Proof.
  split; [reflexivity|]. split; [reflexivity|].
  split; [lia|]. split; [lia|]. split; [lia|]. split; [lia|]. split; [lia|].
  apply (extract_patches_rejects_overhanging_box (ops := plain_ops)
           grey_ramp_frame (mkBox 5 0 9 4) [mkBox 0 0 4 4] 6 8 4
           np_float64 float64);
    [reflexivity | reflexivity | cbn; lia | cbn; lia | cbn; lia | cbn; lia
     | cbn; lia].
Defined.

Lemma extract_patches_repeats_last_column_witness :
  shape grey_ramp_frame = [6; 8] /\ np_type np_float64 = Some float64
  /\ 0 <= 3 /\ 1 <= 8 /\ 0 <= 1 /\ 1 + 3 <= 6
  /\ extract_patches_from_frame (H := plain_ops) grey_ramp_frame
       [box_map inject_Z (mkBox (8 - 1) 1 (8 - 1 + 3) (1 + 3))] 3 0 np_float64
     = Done (Patches3
               [(fun i => (fun _ => astype (PixelOps := plain_ops) float64
                                      (at3 grey_ramp_frame (1 + i) (8 - 1) 0))
                            <$> seqZ 0 3)
                  <$> seqZ 0 3]).
Proof.
  split; [reflexivity|]. split; [reflexivity|].
  split; [lia|]. split; [lia|]. split; [lia|]. split; [lia|].
  apply (extract_patches_repeats_last_column (ops := plain_ops)
           grey_ramp_frame 6 8 3 1 np_float64 float64);
    [reflexivity | reflexivity | lia | lia | lia | lia].
Defined.

(** The patch of the last example: the column 7 of rows 1 to 3, three
    times. *)
Lemma extract_patches_repeats_last_column_example :
  extract_patches_from_frame (H := plain_ops) grey_ramp_frame
    [mkBox 7 1 10 4]%Q 3 0 np_float64
  = Done (Patches3 [[[170; 170; 170]; [270; 270; 270]; [370; 370; 370]]]%Q).
Proof. vm_compute. reflexivity. Qed.

End PatchesProps.

(** ** Patch mode, end to end *)

Module PatchModeProps.
Import Geometry Extractor Example GeometryProps ExtractorExtra.

Local Open Scope Q_scope.


Section PatchMode.
Context `{Detector}.
Variable self : RegionExtractor.



End PatchMode.


End PatchModeProps.
